(** * Coverage badge generator (scripts/generate_coverage_badge.py)

    A shallow embedding of [CoverageBadgeGenerator]: the extraction of the
    line rate from a coverage report, the colour classification, the text
    width heuristic, the three SVG templates and [generate_badge], followed
    by the properties of the specification that concern them; then [main]
    of the script and the functions of python_cicd_demo/main.py, with
    properties read off the code.

    Conventions of the embedding.
    - A Python [str] is a [string]; every character stands for the code point
      of its byte, and the text handled here is ASCII.
    - A Python [float] is an IEEE 754 binary64 number, [spec_float] with
      precision 53 and maximal exponent 1024, rounded to nearest even.
    - A Python [int] is a [Z].
    - A raised exception is the [Raise] case of [result]. *)

From Stdlib Require Import ZArith QArith Qround Qpower Ascii String List Bool Lia.
From Stdlib Require Import DecimalString.
From Stdlib Require Import Floats.SpecFloat.
From stdpp Require Import gmap strings.

Local Open Scope string_scope.
Local Open Scope Z_scope.

(** ** Exceptions *)

Inductive exn : Type :=
| FileNotFoundError (msg : string)
| ParseError (msg : string)
| ValueError (msg : string)
| OverflowError (msg : string)
| KeyError (msg : string)
| RuntimeError (msg : string).

Inductive result (A : Type) : Type :=
| Ok (a : A)
| Raise (e : exn).

Arguments Ok {A} a.
Arguments Raise {A} e.

#[global] Instance result_ret : MRet result := fun A a => Ok a.

#[global] Instance result_bind : MBind result := fun A B k r =>
  match r with
  | Ok a => k a
  | Raise e => Raise e
  end.

(** [str(e)] of an exception: its message. *)
Definition exn_str (e : exn) : string :=
  match e with
  | FileNotFoundError m | ParseError m | ValueError m
  | OverflowError m | KeyError m | RuntimeError m => m
  end.

(** ** Strings *)

Module Str.

Definition is_digit (c : ascii) : bool :=
  let n := N_of_ascii c in ((48 <=? n) && (n <=? 57))%N.

Definition is_lower (c : ascii) : bool :=
  let n := N_of_ascii c in ((97 <=? n) && (n <=? 122))%N.

Definition is_upper (c : ascii) : bool :=
  let n := N_of_ascii c in ((65 <=? n) && (n <=? 90))%N.

(** [Py_ISSPACE]: space, and tab to carriage return. *)
Definition is_space (c : ascii) : bool :=
  let n := N_of_ascii c in ((n =? 32) || ((9 <=? n) && (n <=? 13)))%N.

Definition to_upper (c : ascii) : ascii :=
  if is_lower c then ascii_of_N (N_of_ascii c - 32) else c.

Definition to_lower (c : ascii) : ascii :=
  if is_upper c then ascii_of_N (N_of_ascii c + 32) else c.

(** [s.upper()] *)
Fixpoint upper (s : string) : string :=
  match s with
  | EmptyString => EmptyString
  | String c s' => String (to_upper c) (upper s')
  end.

(** [len(s)] *)
Definition len (s : string) : Z := Z.of_nat (String.length s).

(** [str(n)] for an int. *)
Definition of_Z (z : Z) : string := NilZero.string_of_int (Z.to_int z).

(** The text of a template is written with single quotes where the source
    has double quotes; [lit] puts the double quotes back.  No template of
    the source contains a single quote. *)
Fixpoint lit (s : string) : string :=
  match s with
  | EmptyString => EmptyString
  | String c s' =>
      String (if Ascii.eqb c (ascii_of_nat 39) then ascii_of_nat 34 else c) (lit s')
  end.

Definition hex_digit (n : N) : ascii :=
  ascii_of_N (if (n <? 10)%N then 48 + n else 87 + n).

(** [repr(s)] of a string. *)
Definition has_char (c : ascii) (s : string) : bool :=
  existsb (Ascii.eqb c) (list_ascii_of_string s).

Definition repr_char (quote : ascii) (c : ascii) : string :=
  let n := N_of_ascii c in
  if Ascii.eqb c quote || (n =? 92)%N then String (ascii_of_nat 92) (String c EmptyString)
  else if (n =? 9)%N then String (ascii_of_nat 92) "t"
  else if (n =? 10)%N then String (ascii_of_nat 92) "n"
  else if (n =? 13)%N then String (ascii_of_nat 92) "r"
  else if (n <? 32)%N || (n =? 127)%N then
    String (ascii_of_nat 92)
      (String "x" (String (hex_digit (n / 16)) (String (hex_digit (n mod 16)) EmptyString)))
  else String c EmptyString.

Definition repr (s : string) : string :=
  let quote :=
    if has_char (ascii_of_nat 39) s && negb (has_char (ascii_of_nat 34) s)
    then ascii_of_nat 34 else ascii_of_nat 39 in
  String quote
    (String.concat "" (map (repr_char quote) (list_ascii_of_string s))
     +:+ String quote EmptyString).

(** The longest prefix of characters satisfying [f], and what follows it. *)
Fixpoint take_while (f : ascii -> bool) (l : list ascii) : list ascii :=
  match l with
  | c :: l' => if f c then c :: take_while f l' else []
  | [] => []
  end.

Fixpoint drop_while (f : ascii -> bool) (l : list ascii) : list ascii :=
  match l with
  | c :: l' => if f c then drop_while f l' else l
  | [] => []
  end.

End Str.

(** ** Floats: IEEE 754 binary64 *)

Module Float.

Definition prec : Z := 53.
Definition emax : Z := 1024.

Abbreviation float := spec_float.

Definition is_finite (x : float) : bool :=
  match x with
  | S754_zero _ | S754_finite _ _ _ => true
  | S754_infinity _ | S754_nan => false
  end.

(** The real number a finite float stands for. *)
Definition to_Q (x : float) : Q :=
  match x with
  | S754_finite s m e =>
      let v := (inject_Z (Zpos m) * Qpower 2 e)%Q in
      if s then Qopp v else v
  | _ => 0%Q
  end.

(** [x * y] on floats. *)
Definition mul (x y : float) : float := SFmul prec emax x y.

(** The float nearest to an int; [None] stands for the [OverflowError] of
    an int that is too large. *)
Definition of_Z (z : Z) : option float :=
  let x := binary_normalize prec emax z 0 false in
  if is_finite x then Some x else None.

Definition of_int (z : Z) : result float :=
  match of_Z z with
  | Some x => Ok x
  | None => Raise (OverflowError "int too large to convert to float")
  end.

(** [i * x] and [x * i] for an int [i] and a float [x]: the int is
    converted first. *)
Definition int_mul (i : Z) (x : float) : result float :=
  y ← of_int i; mret (mul y x).

Definition mul_int (x : float) (i : Z) : result float :=
  y ← of_int i; mret (mul x y).

(** [x >= i] for a float [x] and an int [i]: the comparison is exact, and
    false on nan. *)
Definition ge_int (x : float) (i : Z) : bool :=
  match x with
  | S754_nan => false
  | S754_infinity s => negb s
  | S754_zero _ => i <=? 0
  | S754_finite s m e =>
      let v := if s then Zneg m else Zpos m in
      if 0 <=? e then i <=? v * 2 ^ e else i * 2 ^ (- e) <=? v
  end.

(** [int(x)]: truncation towards zero. *)
Definition to_int (x : float) : result Z :=
  match x with
  | S754_nan => Raise (ValueError "cannot convert float NaN to integer")
  | S754_infinity _ => Raise (OverflowError "cannot convert float infinity to integer")
  | S754_zero _ => Ok 0
  | S754_finite s m e =>
      let a := if 0 <=? e then Zpos m * 2 ^ e else Zpos m / 2 ^ (- e) in
      Ok (if s then - a else a)
  end.

(** [f"{x:.0f}"]: the nearest integer, ties to even, with the sign kept. *)
Definition round_half_even (m : positive) (e : Z) : Z :=
  if 0 <=? e then Zpos m * 2 ^ e
  else
    let d := 2 ^ (- e) in
    let q := Zpos m / d in
    let r := Zpos m mod d in
    match 2 * r ?= d with
    | Lt => q
    | Gt => q + 1
    | Eq => if Z.even q then q else q + 1
    end.

Definition format_0f (x : float) : string :=
  match x with
  | S754_nan => "nan"
  | S754_infinity s => if s then "-inf" else "inf"
  | S754_zero s => if s then "-0" else "0"
  | S754_finite s m e =>
      (if s then "-" else "") +:+ Str.of_Z (round_half_even m e)
  end.

(** *** [float(s)] for a string

    Leading and trailing white space is dropped; a single underscore may
    stand between two digits; then comes a sign and either a decimal
    number with an optional exponent, or one of inf, infinity and nan in
    any case.  The value is the float nearest to the decimal number. *)

Definition lstrip (l : list ascii) : list ascii := Str.drop_while Str.is_space l.
Definition strip (l : list ascii) : list ascii := rev (lstrip (rev (lstrip l))).

Definition underscore (c : ascii) : bool := Ascii.eqb c "_".

(** An underscore is legal only after a digit and before a digit. The
    result is the text without its underscores. *)
Fixpoint drop_underscores (prev : option ascii) (l : list ascii) : option (list ascii) :=
  match l with
  | [] =>
      match prev with
      | Some p => if underscore p then None else Some []
      | None => Some []
      end
  | c :: l' =>
      let prev_digit := match prev with Some p => Str.is_digit p | None => false end in
      let prev_under := match prev with Some p => underscore p | None => false end in
      if underscore c then
        if prev_digit then drop_underscores (Some c) l' else None
      else if prev_under && negb (Str.is_digit c) then None
      else option_map (cons c) (drop_underscores (Some c) l')
  end.

Definition digits_value (l : list ascii) : Z :=
  fold_left (fun acc c => 10 * acc + Z.of_N (N_of_ascii c - 48)) l 0.

Definition take_sign (l : list ascii) : bool * list ascii :=
  match l with
  | c :: l' =>
      if Ascii.eqb c "-" then (true, l')
      else if Ascii.eqb c "+" then (false, l')
      else (false, l)
  | [] => (false, l)
  end.

Definition span_digits (l : list ascii) : list ascii * list ascii :=
  (Str.take_while Str.is_digit l, Str.drop_while Str.is_digit l).

(** The float nearest to [(-1)^neg * m * 10^e]. *)
Definition of_decimal (neg : bool) (m : Z) (e : Z) : float :=
  if 0 <=? e then
    match m * 10 ^ e with
    | Zpos p => binary_round prec emax neg p 0
    | _ => S754_zero neg
    end
  else
    match m with
    | Zpos p =>
        let '(q, e', l) := SFdiv_core_binary prec emax (Zpos p) 0 (10 ^ (- e)) 0 in
        binary_round_aux prec emax neg q e' l
    | _ => S754_zero neg
    end.

Definition lower_eq (l : list ascii) (word : string) : bool :=
  String.eqb (string_of_list_ascii (map Str.to_lower l)) word.

(** The exponent part: empty, or e or E, a sign and at least one digit. *)
Definition parse_exponent (l : list ascii) : option Z :=
  match l with
  | [] => Some 0
  | c :: l' =>
      if Ascii.eqb c "e" || Ascii.eqb c "E" then
        let '(neg, l'') := take_sign l' in
        match l'' with
        | [] => None
        | _ :: _ =>
            if forallb Str.is_digit l'' then
              Some (if neg then - digits_value l'' else digits_value l'')
            else None
        end
      else None
  end.

Definition parse_number (neg : bool) (l : list ascii) : option float :=
  let '(int_part, rest) := span_digits l in
  let '(frac_part, rest') :=
    match rest with
    | c :: r => if Ascii.eqb c "." then span_digits r else ([], rest)
    | [] => ([], rest)
    end in
  match (int_part ++ frac_part)%list with
  | [] => None
  | ds =>
      match parse_exponent rest' with
      | Some ex => Some (of_decimal neg (digits_value ds) (ex - Z.of_nat (length frac_part)))
      | None => None
      end
  end.

Definition parse (s : string) : option float :=
  match drop_underscores None (strip (list_ascii_of_string s)) with
  | None => None
  | Some l =>
      let '(neg, body) := take_sign l in
      if lower_eq body "inf" || lower_eq body "infinity" then Some (S754_infinity neg)
      else if lower_eq body "nan" then Some S754_nan
      else parse_number neg body
  end.

(** [float(s)] *)
Definition of_string (s : string) : result float :=
  match parse s with
  | Some x => Ok x
  | None => Raise (ValueError ("could not convert string to float: " +:+ Str.repr s))
  end.

End Float.

(** ** Element trees (xml.etree.ElementTree) *)

#[warnings="-register-all"] Inductive Element : Type :=
| Elem (tag : string) (attrib : gmap string string) (children : list Element).

Definition tag_of (e : Element) : string := let 'Elem t _ _ := e in t.
Definition attrib_of (e : Element) : gmap string string := let 'Elem _ a _ := e in a.
Definition children_of (e : Element) : list Element := let 'Elem _ _ c := e in c.

(** [e.get(key)] *)
Definition get (e : Element) (key : string) : option string := attrib_of e !! key.

(** [e.iter(tag)]: [e] and its descendants having that tag, in document
    order. *)
Fixpoint iter (t : string) (e : Element) : list Element :=
  match e with
  | Elem tg _ cs =>
      ((if String.eqb tg t then [e] else []) ++ flat_map (iter t) cs)%list
  end.

(** [e.findall(".//" + tag)]: the proper descendants of [e] having that tag,
    in document order. *)
Definition findall_descendants (e : Element) (t : string) : list Element :=
  flat_map (iter t) (children_of e).

(** What the XML parser makes of the text of a file: the tree of a
    well-formed document, or the message of a [ParseError]. *)
Inductive parsed : Type :=
| Tree (root : Element)
| Malformed (msg : string).

(** ** The outside world: files and the console *)

Record World : Type := mkWorld {
  files : gmap string string;
  stdout : list string
}.

(** A computation reads and changes the world and returns or raises. *)
Definition io (A : Type) : Type := World -> World * result A.

#[global] Instance io_ret : MRet io := fun A a w => (w, Ok a).

#[global] Instance io_bind : MBind io := fun A B k m w =>
  match m w with
  | (w', Ok a) => k a w'
  | (w', Raise e) => (w', Raise e)
  end.

Definition lift {A : Type} (r : result A) : io A := fun w => (w, r).

Definition raise {A : Type} (e : exn) : io A := lift (Raise e).

(** [try: m except (...) as e: h e], for the exceptions that [caught]
    selects. *)
Definition try_except {A : Type} (m : io A) (caught : exn -> bool) (h : exn -> io A) : io A :=
  fun w =>
    match m w with
    | (w', Raise e) => if caught e then h e w' else (w', Raise e)
    | r => r
    end.

(** [print(line)] *)
Definition print (line : string) : io unit :=
  fun w => (mkWorld (files w) (stdout w ++ [line])%list, Ok tt).

(** [with open(path, "w") as f: f.write(data)]: the file is created or
    replaced.  The store accepts every write. *)
Definition write_text (path data : string) : io unit :=
  fun w => (mkWorld (<[path := data]> (files w)) (stdout w), Ok tt).

(** [open(path).read()] *)
Definition read_text (path : string) : io string :=
  fun w =>
    match files w !! path with
    | Some data => (w, Ok data)
    | None =>
        (w, Raise (FileNotFoundError
                     ("[Errno 2] No such file or directory: " +:+ Str.repr path)))
    end.

(** Truth value of a Python string. *)
Definition truthy (s : string) : bool := negb (String.eqb s "").

(** ** The generator *)

(** [coverage >= threshold] is whatever the type of [coverage] makes of it. *)
Class GeInt (A : Type) : Type := ge_int : A -> Z -> bool.

#[global] Instance float_GeInt : GeInt Float.float := Float.ge_int.
#[global] Instance Q_GeInt : GeInt Q := fun q i => Qle_bool (inject_Z i) q.

(** The literal [0.6]. *)
Definition lit_0_6 : Float.float := Eval vm_compute in Float.of_decimal false 6 (-1).

Definition color_map : gmap string string :=
  {[ "brightgreen" := "#4c1";
     "green" := "#97ca00";
     "yellow" := "#dfb317";
     "orange" := "#fe7d37";
     "red" := "#e05d44";
     "lightgrey" := "#9f9f9f";
     "blue" := "#007ec6" ]}.

(** [_get_coverage_color] *)
Definition _get_coverage_color {A : Type} `{GeInt A}
    (coverage : A) (min_good min_ok : Z) : string :=
  if ge_int coverage min_good then "brightgreen"
  else if ge_int coverage min_ok then "yellow"
  else "red".

(** [_calculate_text_width]; the callers pass the font size, 11 by default. *)
Definition _calculate_text_width (text : string) (font_size : Z) : result Z :=
  char_width ← Float.int_mul font_size lit_0_6;
  w ← Float.int_mul (Str.len text) char_width;
  Float.to_int w.

(** [_flat_badge_template] *)
Definition _flat_badge_template (title text color : string) : result string :=
  let badge_color := default color (color_map !! color) in
  title_width ← _calculate_text_width title 11;
  text_width ← _calculate_text_width text 11;
  let total_width := title_width + text_width + 20 in
  let title_x := title_width / 2 + 6 in
  let text_x := title_width + text_width / 2 + 10 in
  mret (
      Str.lit "<svg xmlns='http://www.w3.org/2000/svg' " +:+
      Str.lit "xmlns:xlink='http://www.w3.org/1999/xlink' width='" +:+
      Str.of_Z total_width +:+
      Str.lit "' height='20' role='img' aria-label='" +:+
      title +:+
      ": " +:+
      text +:+
      Str.lit "'>
    <title>" +:+
      title +:+
      ": " +:+
      text +:+
      Str.lit "</title>
    <linearGradient id='s' x2='0' y2='100%'>
        <stop offset='0' stop-color='#bbb' stop-opacity='.1'/>
        <stop offset='1' stop-opacity='.1'/>
    </linearGradient>
    <clipPath id='r'>
        <rect width='" +:+
      Str.of_Z total_width +:+
      Str.lit "' height='20' rx='3' fill='#fff'/>
    </clipPath>
    <g clip-path='url(#r)'>
        <rect width='" +:+
      Str.of_Z (title_width + 10) +:+
      Str.lit "' height='20' fill='#555'/>
        <rect x='" +:+
      Str.of_Z (title_width + 10) +:+
      Str.lit "' width='" +:+
      Str.of_Z (text_width + 10) +:+
      Str.lit "' height='20' fill='" +:+
      badge_color +:+
      Str.lit "'/>
        <rect width='" +:+
      Str.of_Z total_width +:+
      Str.lit "' height='20' fill='url(#s)'/>
    </g>
    <g fill='#fff' text-anchor='middle' " +:+
      Str.lit "font-family='Verdana,Geneva,DejaVu Sans,sans-serif' " +:+
      Str.lit "text-rendering='geometricPrecision' font-size='110'>
        <text aria-hidden='true' x='" +:+
      Str.of_Z (title_x * 10) +:+
      Str.lit "' y='150' fill='#010101' fill-opacity='.3' transform='scale(.1)'>" +:+
      title +:+
      Str.lit "</text>
        <text x='" +:+
      Str.of_Z (title_x * 10) +:+
      Str.lit "' y='140' transform='scale(.1)' fill='#fff'>" +:+
      title +:+
      Str.lit "</text>
        <text aria-hidden='true' x='" +:+
      Str.of_Z (text_x * 10) +:+
      Str.lit "' y='150' fill='#010101' fill-opacity='.3' transform='scale(.1)'>" +:+
      text +:+
      Str.lit "</text>
        <text x='" +:+
      Str.of_Z (text_x * 10) +:+
      Str.lit "' y='140' transform='scale(.1)' fill='#fff'>" +:+
      text +:+
      "</text>
    </g>
</svg>").

(** [_plastic_badge_template] *)
Definition _plastic_badge_template (title text color : string) : result string :=
  let badge_color := default color (color_map !! color) in
  title_width ← _calculate_text_width title 11;
  text_width ← _calculate_text_width text 11;
  let total_width := title_width + text_width + 20 in
  let title_x := title_width / 2 + 6 in
  let text_x := title_width + text_width / 2 + 10 in
  mret (
      Str.lit "<svg xmlns='http://www.w3.org/2000/svg' " +:+
      Str.lit "xmlns:xlink='http://www.w3.org/1999/xlink' width='" +:+
      Str.of_Z total_width +:+
      Str.lit "' height='18' role='img' aria-label='" +:+
      title +:+
      ": " +:+
      text +:+
      Str.lit "'>
    <title>" +:+
      title +:+
      ": " +:+
      text +:+
      Str.lit "</title>
    <linearGradient id='s' x2='0' y2='100%'>
        <stop offset='0' stop-color='#fff' stop-opacity='.7'/>
        <stop offset='.1' stop-color='#aaa' stop-opacity='.1'/>
        <stop offset='.9' stop-color='#000' stop-opacity='.3'/>
        <stop offset='1' stop-color='#000' stop-opacity='.5'/>
    </linearGradient>
    <clipPath id='r'>
        <rect width='" +:+
      Str.of_Z total_width +:+
      Str.lit "' height='18' rx='4' fill='#fff'/>
    </clipPath>
    <g clip-path='url(#r)'>
        <rect width='" +:+
      Str.of_Z (title_width + 10) +:+
      Str.lit "' height='18' fill='#555'/>
        <rect x='" +:+
      Str.of_Z (title_width + 10) +:+
      Str.lit "' width='" +:+
      Str.of_Z (text_width + 10) +:+
      Str.lit "' height='18' fill='" +:+
      badge_color +:+
      Str.lit "'/>
        <rect width='" +:+
      Str.of_Z total_width +:+
      Str.lit "' height='18' fill='url(#s)'/>
    </g>
    <g fill='#fff' text-anchor='middle' " +:+
      Str.lit "font-family='Verdana,Geneva,DejaVu Sans,sans-serif' " +:+
      Str.lit "text-rendering='geometricPrecision' font-size='110'>
        <text aria-hidden='true' x='" +:+
      Str.of_Z (title_x * 10) +:+
      Str.lit "' y='140' fill='#010101' fill-opacity='.3' transform='scale(.1)'>" +:+
      title +:+
      Str.lit "</text>
        <text x='" +:+
      Str.of_Z (title_x * 10) +:+
      Str.lit "' y='130' transform='scale(.1)' fill='#fff'>" +:+
      title +:+
      Str.lit "</text>
        <text aria-hidden='true' x='" +:+
      Str.of_Z (text_x * 10) +:+
      Str.lit "' y='140' fill='#010101' fill-opacity='.3' transform='scale(.1)'>" +:+
      text +:+
      Str.lit "</text>
        <text x='" +:+
      Str.of_Z (text_x * 10) +:+
      Str.lit "' y='130' transform='scale(.1)' fill='#fff'>" +:+
      text +:+
      "</text>
    </g>
</svg>").

(** [_for_the_badge_template] *)
Definition _for_the_badge_template (title text color : string) : result string :=
  let badge_color := default color (color_map !! color) in
  let title_upper := Str.upper title in
  let text_upper := Str.upper text in
  title_width ← _calculate_text_width title_upper 12;
  text_width ← _calculate_text_width text_upper 12;
  let total_width := title_width + text_width + 24 in
  let title_x := title_width / 2 + 8 in
  let text_x := title_width + text_width / 2 + 16 in
  mret (
      Str.lit "<svg xmlns='http://www.w3.org/2000/svg' " +:+
      Str.lit "xmlns:xlink='http://www.w3.org/1999/xlink' width='" +:+
      Str.of_Z total_width +:+
      Str.lit "' height='28' role='img' aria-label='" +:+
      title_upper +:+
      ": " +:+
      text_upper +:+
      Str.lit "'>
    <title>" +:+
      title_upper +:+
      ": " +:+
      text_upper +:+
      Str.lit "</title>
    <g shape-rendering='crispEdges'>
        <rect width='" +:+
      Str.of_Z (title_width + 16) +:+
      Str.lit "' height='28' fill='#555'/>
        <rect x='" +:+
      Str.of_Z (title_width + 16) +:+
      Str.lit "' width='" +:+
      Str.of_Z (text_width + 8) +:+
      Str.lit "' height='28' fill='" +:+
      badge_color +:+
      Str.lit "'/>
    </g>
    <g fill='#fff' text-anchor='middle' " +:+
      Str.lit "font-family='Verdana,Geneva,DejaVu Sans,sans-serif' " +:+
      Str.lit "text-rendering='geometricPrecision' font-weight='bold' font-size='100'>
        <text x='" +:+
      Str.of_Z (title_x * 10) +:+
      Str.lit "' y='175' transform='scale(.1)' fill='#fff'>" +:+
      title_upper +:+
      Str.lit "</text>
        <text x='" +:+
      Str.of_Z (text_x * 10) +:+
      Str.lit "' y='175' transform='scale(.1)' fill='#fff'>" +:+
      text_upper +:+
      "</text>
    </g>
</svg>").

(** [self.badge_templates] *)
Definition badge_templates : gmap string (string -> string -> string -> result string) :=
  {[ "flat" := _flat_badge_template;
     "plastic" := _plastic_badge_template;
     "for-the-badge" := _for_the_badge_template ]}.

(** [d[key]] *)
Definition getitem {V : Type} (d : gmap string V) (key : string) : result V :=
  match d !! key with
  | Some v => Ok v
  | None => Raise (KeyError (Str.repr key))
  end.

(** [_generate_svg_badge] *)
Definition _generate_svg_badge (title text color style : string) : result string :=
  fallback ← getitem badge_templates "flat";
  let template_func := default fallback (badge_templates !! style) in
  template_func title text color.

Section Generator.

(** [xml.etree.ElementTree]'s parser, from the text of a file to a tree or
    to the message of a [ParseError]. *)
Variable XML : string -> parsed.

(** [ET.parse(path).getroot()] *)
Definition ET_parse (path : string) : io Element :=
  data ← read_text path;
  match XML data with
  | Tree root => mret root
  | Malformed msg => raise (ParseError msg)
  end.

(** The loop over the packages of [_parse_coverage_xml]. *)
Fixpoint package_loop (packages : list Element) : result Float.float :=
  match packages with
  | package :: rest =>
      match get package "line-rate" with
      | Some package_line_rate =>
          if truthy package_line_rate then
            x ← Float.of_string package_line_rate; Float.mul_int x 100
          else package_loop rest
      | None => package_loop rest
      end
  | [] => Raise (ValueError "Could not find coverage data in XML")
  end.

Definition caught (e : exn) : bool :=
  match e with
  | ParseError _ | ValueError _ | FileNotFoundError _ => true
  | _ => false
  end.

(** [_parse_coverage_xml]; the counters [total_lines] and [covered_lines] of
    the source are never read and are left out. *)
Definition _parse_coverage_xml (coverage_file : string) : io Float.float :=
  try_except
    (root ← ET_parse coverage_file;
     match get root "line-rate" with
     | Some line_rate =>
         if truthy line_rate then
           lift (x ← Float.of_string line_rate; Float.mul_int x 100)
         else lift (package_loop (findall_descendants root "package"))
     | None => lift (package_loop (findall_descendants root "package"))
     end)
    caught
    (fun e =>
       raise (RuntimeError
                ("Error parsing coverage file " +:+ coverage_file +:+ ": " +:+ exn_str e))).

(** [generate_badge] *)
Definition generate_badge (coverage_file output_file style title : string)
    (min_good min_ok : Z) : io unit :=
  coverage_percent ← _parse_coverage_xml coverage_file;
  let color := _get_coverage_color coverage_percent min_good min_ok in
  let coverage_text := Float.format_0f coverage_percent +:+ "%" in
  svg_content ← lift (_generate_svg_badge title coverage_text color style);
  _ ← write_text output_file svg_content;
  _ ← print ("Generated coverage badge: " +:+ output_file);
  print ("Coverage: " +:+ coverage_text +:+ " (" +:+ color +:+ ")").

End Generator.

(** ** A parser to run the generator on concrete reports

    It reads the fragment of XML made of elements and attributes: character
    data, declarations and comments are skipped, and there are no entities.
    The properties below hold for every parser; this one serves to evaluate
    the generator on reports written out as text. *)

Module MiniXML.

Inductive token : Type :=
| Open (name : string) (attrs : list (string * string))
| Close (name : string)
| Empty (name : string) (attrs : list (string * string))
| Skip.

Definition is_char (c : ascii) (x : ascii) : bool := Ascii.eqb x c.
Definition not_char (c : ascii) (x : ascii) : bool := negb (Ascii.eqb x c).
Definition quote (c : ascii) : bool :=
  Ascii.eqb c (ascii_of_nat 34) || Ascii.eqb c (ascii_of_nat 39).

(** The texts found between [<] and [>]. *)
Fixpoint tags (l : list ascii) (cur : option (list ascii)) : option (list (list ascii)) :=
  match l, cur with
  | [], None => Some []
  | [], Some _ => None
  | c :: l', None => if is_char "<" c then tags l' (Some []) else tags l' None
  | c :: l', Some acc =>
      if is_char ">" c then option_map (cons (rev acc)) (tags l' None)
      else tags l' (Some (c :: acc))
  end.

(** [key="value"] pairs separated by white space. *)
Fixpoint attributes (fuel : nat) (l : list ascii) : option (list (string * string)) :=
  match fuel with
  | O => None
  | S fuel' =>
      match Str.drop_while Str.is_space l with
      | [] => Some []
      | l1 =>
          let key := Str.take_while (not_char "=") l1 in
          match Str.drop_while (not_char "=") l1 with
          | _ :: q :: l2 =>
              if quote q then
                let value := Str.take_while (not_char q) l2 in
                match Str.drop_while (not_char q) l2 with
                | _ :: l3 =>
                    option_map
                      (cons (string_of_list_ascii key, string_of_list_ascii value))
                      (attributes fuel' l3)
                | [] => None
                end
              else None
          | _ => None
          end
      end
  end.

Definition element_token (l : list ascii) (empty : bool) : option token :=
  let name := string_of_list_ascii (Str.take_while (fun c => negb (Str.is_space c)) l) in
  match attributes (S (length l)) (Str.drop_while (fun c => negb (Str.is_space c)) l) with
  | Some attrs => Some (if empty then Empty name attrs else Open name attrs)
  | None => None
  end.

Definition token_of (l : list ascii) : option token :=
  match l with
  | [] => None
  | c :: l' =>
      if is_char "/" c then Some (Close (string_of_list_ascii l'))
      else if is_char "?" c || is_char "!" c then Some Skip
      else
        match rev l with
        | d :: r => if is_char "/" d then element_token (rev r) true else element_token l false
        | [] => None
        end
  end.

Definition frame : Type := string * list (string * string) * list Element.

Definition element (name : string) (attrs : list (string * string))
    (kids : list Element) : Element :=
  Elem name (list_to_map attrs) (rev kids).

(** The tree of a list of tokens: [stack] holds the elements that are
    open, [root] the finished document element. *)
Fixpoint build (toks : list token) (stack : list frame) (root : option Element)
    : option Element :=
  let add e rest :=
    match stack, root with
    | (n, a, kids) :: st, _ => build rest ((n, a, e :: kids) :: st) root
    | [], None => build rest [] (Some e)
    | [], Some _ => None
    end in
  match toks with
  | [] => match stack with [] => root | _ :: _ => None end
  | Skip :: rest => build rest stack root
  | Open n a :: rest => build rest ((n, a, []) :: stack) root
  | Empty n a :: rest => add (element n a []) rest
  | Close n :: rest =>
      match stack with
      | (n', a, kids) :: st =>
          if String.eqb n n' then
            match st, root with
            | (pn, pa, pkids) :: st', _ =>
                build rest ((pn, pa, element n' a kids :: pkids) :: st') root
            | [], None => build rest [] (Some (element n' a kids))
            | [], Some _ => None
            end
          else None
      | [] => None
      end
  end.

Fixpoint tokens (ts : list (list ascii)) : option (list token) :=
  match ts with
  | [] => Some []
  | t :: ts' =>
      match token_of t, tokens ts' with
      | Some tok, Some toks => Some (tok :: toks)
      | _, _ => None
      end
  end.

Definition XML (data : string) : parsed :=
  match tags (list_ascii_of_string data) None with
  | Some ts =>
      match tokens ts with
      | Some toks =>
          match build toks [] None with
          | Some root => Tree root
          | None => Malformed "not well-formed (invalid token)"
          end
      | None => Malformed "not well-formed (invalid token)"
      end
  | None => Malformed "unclosed token"
  end.

End MiniXML.

(** ** Readings of the specification *)

(** The float [100.0]. *)
Definition hundred : Float.float := Eval vm_compute in binary_normalize 53 1024 100 0 false.

(** The line-rate attribute of an element, when it is there and not empty. *)
Definition rate_attr (e : Element) : option string :=
  match get e "line-rate" with
  | Some s => if truthy s then Some s else None
  | None => None
  end.

(** The first result that [f] gives along a list. *)
Fixpoint first_some {A B : Type} (f : A -> option B) (l : list A) : option B :=
  match l with
  | [] => None
  | a :: l' => match f a with Some b => Some b | None => first_some f l' end
  end.

(** The first line-rate attribute that is not empty, looking at the root and
    then at the package elements in document order. *)
Definition first_rate (root : Element) : option string :=
  first_some rate_attr (root :: findall_descendants root "package").



(** The message of the error that extraction raises for a report. *)
Definition malformed_report (coverage_file cause : string) : exn :=
  RuntimeError ("Error parsing coverage file " +:+ coverage_file +:+ ": " +:+ cause).

(** What extraction makes of a line-rate attribute. *)
Definition rate_percent (s : string) : result Float.float :=
  x ← Float.of_string s; Float.mul_int x 100.

(** The body of the [try] statement, for a report that was parsed. *)
Definition resolve (root : Element) : result Float.float :=
  match first_rate root with
  | Some s => rate_percent s
  | None => Raise (ValueError "Could not find coverage data in XML")
  end.

(** The [except] clause. *)
Definition handle (coverage_file : string) (r : result Float.float) : result Float.float :=
  match r with
  | Raise e => if caught e then Raise (malformed_report coverage_file (exn_str e)) else Raise e
  | Ok x => Ok x
  end.


(** ** Readings of the specification: classification *)

(** The classification that the specification gives for a percentage [p]:
    brightgreen exactly from [min_good] on, red exactly below [min_ok], and
    yellow exactly in between. *)
Definition classified (p : Q) (c : string) (min_good min_ok : Z) : Prop :=
  (c = "brightgreen" <-> (inject_Z min_good <= p)%Q) /\
  (c = "red" <-> (p < inject_Z min_ok)%Q) /\
  (c = "yellow" <-> (inject_Z min_ok <= p)%Q /\ (p < inject_Z min_good)%Q).

(** ** Readings of the specification: rendering *)

(** The start of every badge, up to the value of its width attribute. *)
Definition svg_open : string :=
  Str.lit "<svg xmlns='http://www.w3.org/2000/svg' xmlns:xlink='http://www.w3.org/1999/xlink' width='".

(** The document is a badge whose width attribute is [w]. *)
Definition has_width (doc : string) (w : Z) : Prop :=
  exists rest, doc = svg_open +:+ Str.of_Z w +:+ Str.lit "' height='" +:+ rest.

(** [part] occurs in [doc]. *)
Definition contains (doc part : string) : Prop :=
  exists before after, doc = before +:+ part +:+ after.

(** The width estimate as a function of the number of characters. *)
Definition estimate (count font_size : Z) : result Z :=
  char_width ← Float.int_mul font_size lit_0_6;
  w ← Float.int_mul count char_width;
  Float.to_int w.

(** The specification's formula, [int(character_count × font_size × 0.6)],
    over the reals. *)
Definition spec_text_width (count font_size : Z) : Z :=
  Qfloor (inject_Z count * inject_Z font_size * (6 # 10)).

(** The same formula over the floats, multiplying from left to right. *)
Definition spec_text_width_float (count font_size : Z) : result Z :=
  w ← Float.int_mul (count * font_size) lit_0_6;
  Float.to_int w.


(** The estimate against the formula of the specification, for the counts
    below 4096. *)
Definition agrees_11 (n : Z) : bool :=
  match estimate n 11 with
  | Ok w => w =? spec_text_width n 11
  | Raise _ => false
  end.

Definition agrees_12 (n : Z) : bool :=
  match estimate n 12 with
  | Ok w => (w =? spec_text_width n 12) || ((n mod 5 =? 0) && (w =? spec_text_width n 12 - 1))
  | Raise _ => false
  end.

(** A float is small when it is zero or a normal number whose exponent lies
    between [lo] and [hi]. *)
Definition small (lo hi : Z) (x : Float.float) : Prop :=
  match x with
  | S754_zero _ => True
  | S754_finite _ m e => Zdigits2 (Zpos m) = 53 /\ lo <= e <= hi
  | _ => False
  end.


(** ** Sample reports *)

Definition report_top : string :=
  "<?xml version='1.0' ?>
<coverage version='7.4' line-rate='0.8532' branch-rate='0'>
  <packages>
    <package name='demo' line-rate='0.5'/>
  </packages>
</coverage>".

Definition report_packages : string :=
  "<coverage><packages><package name='a'/><package name='b' line-rate='0.5'/>" +:+
  "<package name='c' line-rate='0.25'/></packages></coverage>".

Definition report_empty_top : string :=
  "<coverage line-rate=''><packages><package line-rate='0.5'/></packages></coverage>".

Definition report_bad_top : string :=
  "<coverage line-rate='abc'><packages><package line-rate='0.5'/></packages></coverage>".


Definition report_no_rate : string :=
  "<coverage><packages><package name='a'/></packages></coverage>".

Definition sample_world : World :=
  mkWorld
    {[ "top.xml" := report_top;
       "packages.xml" := report_packages;
       "empty_top.xml" := report_empty_top;
       "bad_top.xml" := report_bad_top;
       "no_rate.xml" := report_no_rate;
       "broken.xml" := "<coverage" ]}
    [].

Definition root_of (data : string) : Element :=
  match MiniXML.XML data with
  | Tree root => root
  | Malformed _ => Elem "" ∅ []
  end.

(** ** The command line of the script *)

(** The arguments as [argparse] hands them over. *)
Record Namespace : Type := mkNamespace {
  arg_coverage_file : string;
  arg_output : string;
  arg_style : string;
  arg_title : string;
  arg_min_good : Z;
  arg_min_ok : Z
}.

(** A text given by the bytes of its UTF-8 encoding. *)
Definition utf8 (codes : list nat) : string :=
  string_of_list_ascii (map ascii_of_nat codes).

(** The marks that open the three messages of [main], as the source file
    holds them. *)
Definition mark_success : string := utf8 [226; 128; 154; 195; 186; 195; 150]%nat.
Definition mark_output : string := utf8 [239; 163; 191; 195; 188; 195; 172; 195; 133]%nat.
Definition mark_error : string := utf8 [226; 128; 154; 195; 185; 195; 165]%nat.

Definition newline : string := String (ascii_of_nat 10) EmptyString.

Section Script.

Variable XML : string -> parsed.

(** [main], from the parsed arguments on; every exception of the model is an
    [Exception], and the [return 0] that follows the [try] statement is the
    value of its body. *)
Definition main (args : Namespace) : io Z :=
  try_except
    (_ ← generate_badge XML (arg_coverage_file args) (arg_output args) (arg_style args)
           (arg_title args) (arg_min_good args) (arg_min_ok args);
     _ ← print (newline +:+ mark_success +:+ " Coverage badge generated successfully!");
     _ ← print (mark_output +:+ " Output: " +:+ arg_output args);
     mret 0)
    (fun _ => true)
    (fun e =>
       _ ← print (mark_error +:+ " Error generating coverage badge: " +:+ exn_str e);
       mret 1).

End Script.

(** ** The arithmetic module (python_cicd_demo/main.py) *)

Module Demo.

(** A number is an int or a float. *)
Inductive num : Type :=
| Int (i : Z)
| Flt (x : Float.float).

(** [a + b] and [a - b]: exact on two ints; otherwise an int is converted
    and the operation is that of the floats. *)
Definition arith (int_op : Z -> Z -> Z) (float_op : Float.float -> Float.float -> Float.float)
    (a b : num) : result num :=
  match a, b with
  | Int i, Int j => Ok (Int (int_op i j))
  | Int i, Flt y => x ← Float.of_int i; mret (Flt (float_op x y))
  | Flt x, Int j => y ← Float.of_int j; mret (Flt (float_op x y))
  | Flt x, Flt y => Ok (Flt (float_op x y))
  end.

(** [add] *)
Definition add (a b : num) : result num :=
  arith Z.add (SFadd Float.prec Float.emax) a b.

(** [subtract] *)
Definition subtract (a b : num) : result num :=
  arith Z.sub (SFsub Float.prec Float.emax) a b.

Definition operations : gmap string (num -> num -> result num) :=
  {[ "add" := add; "subtract" := subtract ]}.

(** [calculate] *)
Definition calculate (operation : string) (a b : num) : result num :=
  match operations !! operation with
  | None => Raise (ValueError ("Unsupported operation: " +:+ operation))
  | Some _ => f ← getitem operations operation; f a b
  end.

End Demo.

(** ** Readings of the runs *)

(** The two lines that [generate_badge] prints. *)
Definition report_lines (output_file coverage_text color : string) : list string :=
  ["Generated coverage badge: " +:+ output_file;
   "Coverage: " +:+ coverage_text +:+ " (" +:+ color +:+ ")"].



(** The sample world after the badge of [top.xml] was written. *)
Definition written_world (output_file : string) : World :=
  fst (generate_badge MiniXML.XML "top.xml" output_file "flat" "coverage" 80 60 sample_world).


(** ** Readings of the documents *)

(** The sign bit of the float is clear, when it has one. *)
Definition sign_clear (x : Float.float) : Prop :=
  match x with
  | S754_zero s | S754_infinity s | S754_finite s _ _ => s = false
  | S754_nan => True
  end.

(** The colour that a template paints for a colour name. *)
Definition resolve_color (color : string) : string := default color (color_map !! color).

(** The label rectangle and the value rectangle of a badge of height [h]. *)
Definition rectangles (h label_width value_width : Z) (fill : string) : string :=
  Str.lit "<rect width='" +:+ Str.of_Z label_width +:+ Str.lit "' height='" +:+ Str.of_Z h +:+
  Str.lit "' fill='#555'/>
        <rect x='" +:+ Str.of_Z label_width +:+ Str.lit "' width='" +:+ Str.of_Z value_width +:+
  Str.lit "' height='" +:+ Str.of_Z h +:+ Str.lit "' fill='" +:+ fill +:+ Str.lit "'/>".

(** A foreground text element at the abscissa [x] (in tenths) and on the
    baseline [y]. *)
Definition text_element (x : Z) (y content : string) : string :=
  Str.lit "<text x='" +:+ Str.of_Z x +:+ Str.lit "' y='" +:+ y +:+
  Str.lit "' transform='scale(.1)' fill='#fff'>" +:+ content +:+ "</text>".

(** The hexadecimal colour of the tier of a coverage. *)
Definition tier_hex {A : Type} `{GeInt A} (coverage : A) (min_good min_ok : Z) : string :=
  if ge_int coverage min_good then "#4c1"
  else if ge_int coverage min_ok then "#dfb317"
  else "#e05d44".

(** The estimate grows with the count, at the font sizes 11 and 12. *)
Definition grows (n : Z) : bool :=
  match estimate n 11, estimate (n + 1) 11, estimate n 12, estimate (n + 1) 12 with
  | Ok a, Ok a', Ok b, Ok b' => (a <=? a') && (b <=? b')
  | _, _, _, _ => false
  end.

(** What a document shows: its width, its two rectangles, and the label and
    the value in the aria-label, in the title element and in the two
    foreground text elements. *)
Definition layout (doc : string) (h total label_width value_width : Z) (fill : string)
    (label_x value_x : Z) (y label value : string) : Prop :=
  has_width doc total /\
  contains doc (rectangles h label_width value_width fill) /\
  contains doc (Str.lit " aria-label='" +:+ label +:+ ": " +:+ value +:+ Str.lit "'>") /\
  contains doc ("<title>" +:+ label +:+ ": " +:+ value +:+ "</title>") /\
  contains doc (text_element (label_x * 10) y label) /\
  contains doc (text_element (value_x * 10) y value).

(** The constants of a template: font size, height, the paddings of the two
    rectangles, the offsets of the two texts, the baseline, and what is done
    to the label and the value before they are measured and shown. *)
Record shape : Type := mkShape {
  font_size : Z;
  height : Z;
  label_pad : Z;
  value_pad : Z;
  label_offset : Z;
  value_offset : Z;
  baseline : string;
  cased : string -> string
}.

(** The constants of the template that a style selects. *)
Definition shape_of (style : string) : shape :=
  if String.eqb style "for-the-badge" then mkShape 12 28 16 8 8 16 "175" Str.upper
  else if String.eqb style "plastic" then mkShape 11 18 10 10 6 10 "130" (fun s => s)
  else mkShape 11 20 10 10 6 10 "140" (fun s => s).

(** The text is made of white space only. *)
Definition blank (s : string) : bool := forallb Str.is_space (list_ascii_of_string s).



(** A report whose root carries a blank line-rate. *)
Definition report_blank : string :=
  "<coverage line-rate='  '><packages><package line-rate='0.5'/></packages></coverage>".

(** The floats [1.0] and [1e16]. *)
Definition one : Float.float := Eval vm_compute in binary_normalize 53 1024 1 0 false.
Definition ten_to_16 : Float.float :=
  Eval vm_compute in binary_normalize 53 1024 (10 ^ 16) 0 false.

(** ** Tactics *)

(** Closes a goal about the order of two rationals from the hypotheses. *)
Ltac Qorder :=
  repeat match goal with
         | H : _ /\ _ |- _ => destruct H
         end;
  try discriminate; try assumption; try reflexivity;
  match goal with
  | H1 : (?a < ?b)%Q, H2 : (?b <= ?a)%Q |- _ => exfalso; exact (Qlt_not_le _ _ H1 H2)
  end.

(** * Properties *)

(** ** Floats *)

Lemma Qpower_2_nonneg (e : Z) : 0 <= e -> (Qpower 2 e == inject_Z (2 ^ e))%Q.
Proof. intros He. rewrite Zpower_Qpower by assumption. reflexivity. Qed.

Lemma Qpower_2_neg (e : Z) : e < 0 -> (Qpower 2 e == / inject_Z (2 ^ (- e)))%Q.
Proof.
  intros He. replace e with (- (- e)) at 1 by lia.
  rewrite Qpower_opp, Zpower_Qpower by lia. reflexivity.
Qed.

Lemma Qle_bool_inject (a b : Z) : Qle_bool (inject_Z a) (inject_Z b) = (a <=? b).
Proof.
  apply eq_true_iff_eq. rewrite Qle_bool_iff, <- Zle_Qle, Z.leb_le. reflexivity.
Qed.

Lemma Qle_bool_proper_r (a b c : Q) : (b == c)%Q -> Qle_bool a b = Qle_bool a c.
Proof.
  intros E. apply eq_true_iff_eq. rewrite !Qle_bool_iff, E. reflexivity.
Qed.

Lemma Qle_bool_div_pow (i v k : Z) :
  0 < k -> Qle_bool (inject_Z i) (inject_Z v * / inject_Z k) = (i * k <=? v).
Proof.
  intros Hk. apply eq_true_iff_eq. rewrite Qle_bool_iff, Z.leb_le.
  unfold Qle, Qmult, Qinv, inject_Z; simpl.
  destruct k as [|p|p]; try lia. simpl. lia.
Qed.

(** On a finite float the comparison with an int is that of the reals. *)
Lemma ge_int_to_Q (x : Float.float) (i : Z) :
  Float.is_finite x = true -> Float.ge_int x i = Qle_bool (inject_Z i) (Float.to_Q x).
Proof.
  destruct x as [s|s| |s m e]; cbn [Float.is_finite Float.ge_int Float.to_Q];
    try discriminate; intros _.
  - symmetry. apply (Qle_bool_inject i 0).
  - destruct (Z.leb_spec 0 e) as [He|He].
    + rewrite (Qle_bool_proper_r _ _ (inject_Z ((if s then Z.neg m else Z.pos m) * 2 ^ e))).
      * symmetry. apply Qle_bool_inject.
      * cbv zeta. destruct s; rewrite Qpower_2_nonneg by assumption;
          rewrite inject_Z_mult; [|reflexivity].
        change (Z.neg m) with (- Z.pos m). rewrite inject_Z_opp. ring.
    + assert (Hk : 0 < 2 ^ (- e)) by (apply Z.pow_pos_nonneg; lia).
      rewrite (Qle_bool_proper_r _ _
                 (inject_Z (if s then Z.neg m else Z.pos m) * / inject_Z (2 ^ (- e)))).
      * symmetry. apply Qle_bool_div_pow. assumption.
      * cbv zeta. destruct s; rewrite Qpower_2_neg by assumption; [|reflexivity].
        change (Z.neg m) with (- Z.pos m). rewrite inject_Z_opp. ring.
Qed.

(** *** Rounding to binary64 in the normal range *)

Lemma digits2_pos_size (p : positive) : digits2_pos p = Pos.size p.
Proof. induction p; simpl; congruence. Qed.

Lemma Zdigits2_bounds (p : positive) :
  2 ^ (Zdigits2 (Zpos p) - 1) <= Zpos p < 2 ^ Zdigits2 (Zpos p).
Proof.
  simpl. rewrite digits2_pos_size.
  pose proof (Pos.size_gt p) as Hgt. pose proof (Pos.size_le p) as Hle.
  apply Pos2Z.pos_lt_pos in Hgt. apply Pos2Z.pos_le_pos in Hle.
  rewrite Pos2Z.inj_pow in Hgt, Hle.
  split; [|exact Hgt].
  replace (Z.pos (Pos.size p)) with (Z.succ (Z.pos (Pos.size p) - 1)) in Hle by lia.
  rewrite Z.pow_succ_r in Hle by lia. lia.
Qed.

Lemma Zdigits2_unique (p : positive) (d : Z) :
  2 ^ (d - 1) <= Zpos p < 2 ^ d -> Zdigits2 (Zpos p) = d.
Proof.
  intros [Hlo Hhi]. pose proof (Zdigits2_bounds p) as [Blo Bhi].
  set (s := Zdigits2 (Zpos p)) in *.
  assert (0 < s) by (subst s; simpl; lia).
  assert (0 < d).
  { destruct (Z.ltb_spec 0 d); [assumption|]. 
    rewrite Z.pow_neg_r in Hlo by lia.
    destruct (Z.eq_dec d 0) as [->|]; [simpl in Hhi; lia|].
    rewrite Z.pow_neg_r in Hhi by lia. lia. }
  destruct (Z.lt_trichotomy s d) as [Hlt|[Heq|Hgt]]; [|assumption|].
  - assert (2 ^ s <= 2 ^ (d - 1)) by (apply Z.pow_le_mono_r; lia). lia.
  - assert (2 ^ d <= 2 ^ (s - 1)) by (apply Z.pow_le_mono_r; lia). lia.
Qed.

Lemma shr_1_m (mrs : shr_record) : 0 <= shr_m mrs -> shr_m (shr_1 mrs) = shr_m mrs / 2.
Proof.
  destruct mrs as [m r s]; simpl. intros Hm.
  destruct m as [|[p|p|]|p]; simpl; try lia; try reflexivity.
  - apply Z.div_unique with (r := 1); lia.
  - apply Z.div_unique with (r := 0); lia.
Qed.

Lemma pow2_double (k : Z) : 0 <= k -> 2 ^ (2 * k) = 2 ^ k * 2 ^ k.
Proof. intros Hk. rewrite <- Z.pow_add_r by lia. f_equal. lia. Qed.

Lemma pow2_double_succ (k : Z) : 0 <= k -> 2 ^ (2 * k + 1) = 2 * (2 ^ k * 2 ^ k).
Proof.
  intros Hk. rewrite Z.pow_add_r, pow2_double by lia. rewrite Z.pow_1_r. ring.
Qed.

Lemma iter_shr_1_m (p : positive) (mrs : shr_record) :
  0 <= shr_m mrs -> shr_m (SpecFloat.iter_pos shr_1 p mrs) = shr_m mrs / 2 ^ Zpos p.
Proof.
  revert mrs. induction p as [p IH|p IH|]; intros mrs Hm; simpl SpecFloat.iter_pos.
  - assert (H1 : 0 <= shr_m (shr_1 mrs)) by (rewrite shr_1_m by assumption; apply Z.div_pos; lia).
    assert (H2 : 0 <= shr_m (SpecFloat.iter_pos shr_1 p (shr_1 mrs)))
      by (rewrite IH by assumption; apply Z.div_pos; [assumption | apply Z.pow_pos_nonneg; lia]).
    rewrite IH, IH, shr_1_m by assumption.
    rewrite !Z.div_div by (try apply Z.pow_pos_nonneg; lia).
    f_equal. change (Z.pos p~1) with (2 * Z.pos p + 1).
    symmetry. apply pow2_double_succ. lia.
  - assert (H2 : 0 <= shr_m (SpecFloat.iter_pos shr_1 p mrs))
      by (rewrite IH by assumption; apply Z.div_pos; [assumption | apply Z.pow_pos_nonneg; lia]).
    rewrite IH, IH by assumption.
    rewrite !Z.div_div by (try apply Z.pow_pos_nonneg; lia).
    f_equal. change (Z.pos p~0) with (2 * Z.pos p).
    symmetry. apply pow2_double. lia.
  - rewrite shr_1_m by assumption. reflexivity.
Qed.

Lemma shr_m_shift (mrs : shr_record) (e n : Z) :
  0 <= shr_m mrs -> 0 <= n ->
  shr_m (fst (shr mrs e n)) = shr_m mrs / 2 ^ n /\ snd (shr mrs e n) = e + n.
Proof.
  intros Hm Hn. destruct n as [|p|p]; simpl; try lia.
  - rewrite Z.div_1_r. split; [reflexivity | lia].
  - split; [apply iter_shr_1_m; assumption | reflexivity].
Qed.

Lemma shr_m_of_loc (m : Z) (l : location) : shr_m (shr_record_of_loc m l) = m.
Proof. destruct l as [|[]]; reflexivity. Qed.

Lemma round_nearest_even_step (m : Z) (l : location) :
  round_nearest_even m l = m \/ round_nearest_even m l = m + 1.
Proof. destruct l as [|[]]; simpl; auto. destruct (Z.even m); auto. Qed.

Lemma fexp_normal (e : Z) : -1021 <= e -> fexp 53 1024 e = e - 53.
Proof. intros He. unfold fexp, emin. lia. Qed.

(** Rounding a mantissa of at least 53 bits whose value lies in the normal
    range gives a normal number of about the same magnitude. *)
Lemma binary_round_aux_normal (sx : bool) (mx : positive) (ex : Z) (lx : location) :
  let d := Zdigits2 (Zpos mx) in
  53 <= d -> -1021 <= d + ex -> d + ex <= 1023 ->
  exists (m : positive) (e : Z),
    binary_round_aux 53 1024 sx (Zpos mx) ex lx = S754_finite sx m e /\
    Zdigits2 (Zpos m) = 53 /\ d + ex - 53 <= e <= d + ex - 52.
Proof.
  intros d Hd Hlo Hhi.
  pose proof (Zdigits2_bounds mx) as Hmx. fold d in Hmx.
  unfold binary_round_aux, shr_fexp. fold d. clearbody d.
  rewrite fexp_normal by assumption.
  destruct (shr_m_shift (shr_record_of_loc (Zpos mx) lx) ex (d + ex - 53 - ex)) as [Hm1 He1];
    [rewrite shr_m_of_loc; lia | lia |].
  destruct (shr (shr_record_of_loc (Zpos mx) lx) ex (d + ex - 53 - ex)) as [mrs1 e1].
  simpl in Hm1, He1. rewrite shr_m_of_loc in Hm1.
  set (m1 := shr_m mrs1) in *.
  assert (Hm1b : 2 ^ 52 <= m1 < 2 ^ 53).
  { rewrite Hm1. replace (d + ex - 53 - ex) with (d - 53) by lia.
    assert (Hp : 0 < 2 ^ (d - 53)) by (apply Z.pow_pos_nonneg; lia).
    assert (E1 : 2 ^ (d - 1) = 2 ^ 52 * 2 ^ (d - 53))
      by (rewrite <- Z.pow_add_r by lia; f_equal; lia).
    assert (E2 : 2 ^ d = 2 ^ 53 * 2 ^ (d - 53))
      by (rewrite <- Z.pow_add_r by lia; f_equal; lia).
    split.
    - apply Z.div_le_lower_bound; [assumption|]. rewrite Z.mul_comm. lia.
    - apply Z.div_lt_upper_bound; [assumption|]. rewrite Z.mul_comm. lia. }
  set (m2 := round_nearest_even m1 (loc_of_shr_record mrs1)).
  assert (Hm2 : 2 ^ 52 <= m2 < 2 ^ 53 \/ m2 = 2 ^ 53).
  { destruct (round_nearest_even_step m1 (loc_of_shr_record mrs1)) as [E|E];
      fold m2 in E; rewrite E; lia. }
  assert (He1' : e1 = d + ex - 53) by lia. clear He1. subst e1.
  destruct Hm2 as [Hm2|Hm2].
  - destruct m2 as [|p2|p2] eqn:Em2; try lia.
    assert (Hd2 : Zdigits2 (Zpos p2) = 53) by (apply Zdigits2_unique; simpl Z.sub; lia).
    rewrite Hd2. rewrite fexp_normal by lia.
    replace (53 + (d + ex - 53) - 53 - (d + ex - 53)) with 0 by lia.
    cbn [shr shr_record_of_loc shr_m].
    exists p2, (d + ex - 53). split; [|split; [assumption | lia]].
    destruct (Z.leb_spec (d + ex - 53) (1024 - 53)); [reflexivity | lia].
  - rewrite Hm2. change (2 ^ 53) with 9007199254740992.
    change (Zdigits2 9007199254740992) with 54.
    rewrite fexp_normal by lia.
    replace (54 + (d + ex - 53) - 53 - (d + ex - 53)) with 1 by lia.
    cbn [shr shr_record_of_loc shr_m SpecFloat.iter_pos shr_1 fst snd].
    exists 4503599627370496%positive, (d + ex - 53 + 1). split; [|split; [reflexivity | lia]].
    destruct (Z.leb_spec (d + ex - 53 + 1) (1024 - 53)); [reflexivity | lia].
Qed.

Lemma pos_iter_xO (k n : positive) : Zpos (Pos.iter xO n k) = Zpos n * 2 ^ Zpos k.
Proof.
  induction k as [|k IH] using Pos.peano_ind.
  - simpl. lia.
  - rewrite Pos.iter_succ, Pos2Z.inj_succ, Z.pow_succ_r by lia.
    change (Zpos (Pos.iter xO n k)~0) with (2 * Zpos (Pos.iter xO n k)). rewrite IH. ring.
Qed.

Lemma binary_round_small (s : bool) (n : positive) :
  Zpos n < 2 ^ 64 -> small (-52) 12 (binary_round 53 1024 s n 0).
Proof.
  intros Hn. pose proof (Zdigits2_bounds n) as Hb.
  set (dn := Zdigits2 (Zpos n)) in *.
  assert (Hdn : 1 <= dn <= 64).
  { split; [subst dn; simpl; lia|].
    destruct (Z.leb_spec dn 64); [assumption|].
    assert (2 ^ 64 <= 2 ^ (dn - 1)) by (apply Z.pow_le_mono_r; lia). lia. }
  unfold binary_round. change (Zpos (digits2_pos n)) with dn.
  rewrite Z.add_0_r, fexp_normal by lia. unfold shl_align.
  destruct (dn - 53 - 0) as [|p|p] eqn:Ed.
  - destruct (binary_round_aux_normal s n 0 loc_Exact) as (m & e & -> & Hm & He);
      fold dn; try lia. fold dn in He. simpl. split; [assumption | lia].
  - destruct (binary_round_aux_normal s n 0 loc_Exact) as (m & e & -> & Hm & He);
      fold dn; try lia. fold dn in He. simpl. split; [assumption | lia].
  - assert (Hz : Zdigits2 (Zpos (Pos.iter xO n p)) = 53).
    { apply Zdigits2_unique. rewrite pos_iter_xO.
      assert (Ep : Zpos p = 53 - dn) by lia. rewrite Ep.
      assert (E1 : 2 ^ (53 - 1) = 2 ^ (dn - 1) * 2 ^ (53 - dn))
        by (rewrite <- Z.pow_add_r by lia; f_equal; lia).
      assert (E2 : 2 ^ 53 = 2 ^ dn * 2 ^ (53 - dn))
        by (rewrite <- Z.pow_add_r by lia; f_equal; lia).
      assert (Hp : 0 < 2 ^ (53 - dn)) by (apply Z.pow_pos_nonneg; lia).
      rewrite E1, E2. split; [apply Z.mul_le_mono_nonneg_r | apply Z.mul_lt_mono_pos_r]; lia. }
    destruct (binary_round_aux_normal s (Pos.iter xO n p) (dn - 53) loc_Exact)
      as (m & e & -> & Hm & He); rewrite ?Hz; try lia.
    rewrite Hz in He. simpl. split; [assumption | lia].
Qed.

Lemma of_Z_small (i : Z) :
  Z.abs i < 2 ^ 64 -> exists x, Float.of_Z i = Some x /\ small (-52) 12 x.
Proof.
  intros Hi. unfold Float.of_Z, binary_normalize, Float.prec, Float.emax.
  destruct i as [|n|n].
  - exists (S754_zero false). split; [reflexivity | exact I].
  - pose proof (binary_round_small false n Hi) as Hs.
    destruct (binary_round 53 1024 false n 0) as [s|s| |s m e]; try contradiction;
      eexists; (split; [reflexivity | exact Hs]).
  - pose proof (binary_round_small true n Hi) as Hs.
    destruct (binary_round 53 1024 true n 0) as [s|s| |s m e]; try contradiction;
      eexists; (split; [reflexivity | exact Hs]).
Qed.

Lemma mul_small (lo1 hi1 lo2 hi2 : Z) (x y : Float.float) :
  small lo1 hi1 x -> small lo2 hi2 y ->
  -1126 <= lo1 + lo2 -> hi1 + hi2 <= 917 ->
  small (lo1 + lo2 + 52) (hi1 + hi2 + 54) (Float.mul x y).
Proof.
  intros Hx Hy Hlo Hhi.
  destruct x as [sx|sx| |sx mx ex], y as [sy|sy| |sy my ey]; try contradiction;
    try exact I.
  destruct Hx as [Dx Ex], Hy as [Dy Ey].
  unfold Float.mul, SFmul, Float.prec, Float.emax.
  pose proof (Zdigits2_bounds mx) as Bx. pose proof (Zdigits2_bounds my) as By.
  rewrite Dx in Bx. rewrite Dy in By.
  change (2 ^ (53 - 1)) with 4503599627370496 in Bx, By.
  change (2 ^ 53) with 9007199254740992 in Bx, By.
  pose proof (Zdigits2_bounds (mx * my)) as Bp.
  set (dp := Zdigits2 (Zpos (mx * my))) in *.
  rewrite Pos2Z.inj_mul in Bp.
  assert (Hp : 2 ^ 104 <= Zpos mx * Zpos my < 2 ^ 106).
  { change (2 ^ 104) with (4503599627370496 * 4503599627370496).
    change (2 ^ 106) with (9007199254740992 * 9007199254740992). nia. }
  assert (Hdp : 105 <= dp <= 106).
  { split.
    - destruct (Z.leb_spec 105 dp); [assumption|].
      assert (2 ^ dp <= 2 ^ 104) by (apply Z.pow_le_mono_r; lia). lia.
    - destruct (Z.leb_spec dp 106); [assumption|].
      assert (2 ^ 106 <= 2 ^ (dp - 1)) by (apply Z.pow_le_mono_r; lia). lia. }
  destruct (binary_round_aux_normal (xorb sx sy) (mx * my) (ex + ey) loc_Exact)
    as (m & e & -> & Hm & He); fold dp; try lia.
  fold dp in He. simpl. split; [assumption | lia].
Qed.

Lemma to_int_small (lo hi : Z) (x : Float.float) :
  small lo hi x -> exists z, Float.to_int x = Ok z.
Proof.
  destruct x as [s|s| |s m e]; simpl; try contradiction; intros _; eexists; reflexivity.
Qed.

Lemma lit_0_6_small : small (-53) (-53) lit_0_6.
Proof. simpl. split; [reflexivity | lia]. Qed.

Lemma int_mul_small (lo hi : Z) (i : Z) (x : Float.float) :
  Z.abs i < 2 ^ 64 -> small lo hi x -> -1074 <= lo -> hi <= 905 ->
  exists y, Float.int_mul i x = Ok y /\ small lo (hi + 66) y.
Proof.
  intros Hi Hx Hlo Hhi. destruct (of_Z_small i Hi) as (f & Hf & Hs).
  unfold Float.int_mul, Float.of_int. rewrite Hf. simpl.
  eexists. split; [reflexivity|].
  pose proof (mul_small (-52) 12 lo hi f x Hs Hx ltac:(lia) ltac:(lia)) as Hm.
  destruct (Float.mul f x) as [s|s| |s m e]; try contradiction; [exact I|].
  destruct Hm as [Hd He]. split; [assumption | lia].
Qed.

(** The width estimate is defined for every text and font size that fit in
    64 bits. *)
Lemma _calculate_text_width_defined (text : string) (font_size : Z) :
  Str.len text < 2 ^ 64 -> Z.abs font_size < 2 ^ 64 ->
  exists w, _calculate_text_width text font_size = Ok w.
Proof.
  intros Hlen Hfs. unfold _calculate_text_width.
  destruct (int_mul_small (-53) (-53) font_size lit_0_6 Hfs lit_0_6_small)
    as (cw & -> & Hcw); try lia.
  simpl.
  assert (Hl : Z.abs (Str.len text) < 2 ^ 64) by (unfold Str.len in *; lia).
  destruct (int_mul_small (-53) (-53 + 66) (Str.len text) cw Hl Hcw)
    as (w & -> & Hw); try lia.
  simpl. eapply to_int_small. exact Hw.
Qed.

(** ** Classification *)

Lemma Qle_bool_false (a b : Q) : Qle_bool a b = false -> (b < a)%Q.
Proof.
  intros H. apply Qnot_le_lt. intros Hle. apply Qle_bool_iff in Hle. congruence.
Qed.

Lemma _get_coverage_color_Q (p : Q) (min_good min_ok : Z) :
  min_ok <= min_good ->
  classified p (_get_coverage_color p min_good min_ok) min_good min_ok.
Proof.
  intros H. assert (HQ : (inject_Z min_ok <= inject_Z min_good)%Q) by (rewrite <- Zle_Qle; exact H).
  unfold classified, _get_coverage_color, ge_int, Q_GeInt.
  destruct (Qle_bool (inject_Z min_good) p) eqn:Eg.
  - apply Qle_bool_iff in Eg.
    assert (Eo : (inject_Z min_ok <= p)%Q) by (eapply Qle_trans; eassumption).
    repeat split; intros; Qorder.
  - apply Qle_bool_false in Eg.
    destruct (Qle_bool (inject_Z min_ok) p) eqn:Eo.
    + apply Qle_bool_iff in Eo. repeat split; intros; Qorder.
    + apply Qle_bool_false in Eo. repeat split; intros; Qorder.
Qed.

Lemma _get_coverage_color_float (x : Float.float) (min_good min_ok : Z) :
  Float.is_finite x = true ->
  _get_coverage_color x min_good min_ok = _get_coverage_color (Float.to_Q x) min_good min_ok.
Proof.
  intros Hx. unfold _get_coverage_color, ge_int, float_GeInt, Q_GeInt.
  rewrite !(ge_int_to_Q x) by exact Hx. reflexivity.
Qed.

(** C1, as amended. With [min_ok <= min_good], a real percentage, and so a
    finite float, is brightgreen exactly from [min_good] on, red exactly below
    [min_ok] and yellow exactly in between; [min_good] itself is brightgreen,
    and [min_ok] itself is yellow when it is below [min_good]. *)
Theorem classify_by_thresholds (min_good min_ok : Z) :
  min_ok <= min_good ->
  (forall p : Q, classified p (_get_coverage_color p min_good min_ok) min_good min_ok) /\
  (forall x : Float.float,
     Float.is_finite x = true ->
     classified (Float.to_Q x) (_get_coverage_color x min_good min_ok) min_good min_ok) /\
  _get_coverage_color (inject_Z min_good) min_good min_ok = "brightgreen" /\
  (min_ok < min_good -> _get_coverage_color (inject_Z min_ok) min_good min_ok = "yellow").
Proof.
  intros H. split; [|split; [|split]].
  - intros p. apply _get_coverage_color_Q. exact H.
  - intros x Hx. rewrite _get_coverage_color_float by exact Hx.
    apply _get_coverage_color_Q. exact H.
  - apply (_get_coverage_color_Q (inject_Z min_good) min_good min_ok H). apply Qle_refl.
  - intros Hlt. apply (_get_coverage_color_Q (inject_Z min_ok) min_good min_ok H).
    split; [apply Qle_refl | rewrite <- Zlt_Qlt; exact Hlt].
Qed.

Lemma classify_by_thresholds_witness :
  classified (Float.to_Q (S754_finite false 6003861253238292 (-46)))
    (_get_coverage_color (S754_finite false 6003861253238292 (-46)) 80 60) 80 60 /\
  _get_coverage_color (inject_Z 60) 80 60 = "yellow".
Proof.
  destruct (classify_by_thresholds 80 60 ltac:(lia)) as (_ & Hf & _ & Hy).
  split; [apply Hf; reflexivity | apply Hy; lia].
Defined.

(** C1, as stated, fails on equal thresholds: [min_ok] is then classified
    brightgreen, not yellow. *)
Lemma classify_equal_thresholds :
  80 <= 80 /\
  _get_coverage_color (inject_Z 80) 80 80 = "brightgreen" /\
  _get_coverage_color (inject_Z 80) 80 80 <> "yellow".
Proof. split; [lia | split; [reflexivity | discriminate]]. Qed.

(** C9. Classification is total, on every kind of number and for every pair
    of thresholds: the colour is one of three, brightgreen when the first
    comparison holds, yellow when only the second does, red when none
    does.  On the reals this means that with inverted or equal thresholds no
    percentage is yellow; and a float that is not a number is red. *)
Theorem classify_total (A : Type) (G : GeInt A) (coverage : A) (min_good min_ok : Z) :
  let c := _get_coverage_color coverage min_good min_ok in
  (c = "brightgreen" \/ c = "yellow" \/ c = "red") /\
  (c = "brightgreen" <-> ge_int coverage min_good = true) /\
  (c = "yellow" <-> ge_int coverage min_good = false /\ ge_int coverage min_ok = true) /\
  (c = "red" <-> ge_int coverage min_good = false /\ ge_int coverage min_ok = false) /\
  (forall p : Q, min_good <= min_ok -> _get_coverage_color p min_good min_ok <> "yellow") /\
  _get_coverage_color S754_nan min_good min_ok = "red".
Proof.
  cbv zeta. unfold _get_coverage_color.
  split; [|split; [|split; [|split; [|split]]]].
  - destruct (ge_int coverage min_good); [auto|]. destruct (ge_int coverage min_ok); auto.
  - destruct (ge_int coverage min_good); [tauto|].
    destruct (ge_int coverage min_ok); split; intros; discriminate.
  - destruct (ge_int coverage min_good), (ge_int coverage min_ok);
      split; try discriminate; try tauto; intros [? ?]; discriminate.
  - destruct (ge_int coverage min_good), (ge_int coverage min_ok);
      split; try discriminate; try tauto; intros [? ?]; discriminate.
  - intros p H. unfold ge_int, Q_GeInt.
    destruct (Qle_bool (inject_Z min_good) p) eqn:Eg; [discriminate|].
    destruct (Qle_bool (inject_Z min_ok) p) eqn:Eo; [|discriminate].
    exfalso. apply Qle_bool_iff in Eo.
    assert (Hle : (inject_Z min_good <= p)%Q)
      by (eapply Qle_trans; [rewrite <- Zle_Qle; exact H | exact Eo]).
    apply Qle_bool_iff in Hle. congruence.
  - reflexivity.
Qed.

Lemma classify_total_witness :
  _get_coverage_color (70 # 1)%Q 60 80 = "brightgreen" /\
  _get_coverage_color (70 # 1)%Q 60 80 <> "yellow".
Proof.
  destruct (classify_total Q Q_GeInt (70 # 1)%Q 60 80) as (_ & Hg & _ & _ & Hy & _).
  split; [apply Hg; reflexivity | apply Hy; lia].
Defined.

(** ** Coverage extraction *)


Lemma rate_percent_parse (s : string) :
  rate_percent s =
    match Float.parse s with
    | Some x => Ok (Float.mul x hundred)
    | None => Raise (ValueError ("could not convert string to float: " +:+ Str.repr s))
    end.
Proof. unfold rate_percent, Float.of_string. destruct (Float.parse s); reflexivity. Qed.

Lemma package_loop_first (packages : list Element) :
  package_loop packages =
    match first_some rate_attr packages with
    | Some s => rate_percent s
    | None => Raise (ValueError "Could not find coverage data in XML")
    end.
Proof.
  induction packages as [|p ps IH]; [reflexivity|].
  simpl. unfold rate_attr at 1.
  destruct (get p "line-rate") as [s|]; [|exact IH].
  destruct (truthy s); [reflexivity | exact IH].
Qed.




Section Extraction.

Variable XML : string -> parsed.

Lemma _parse_coverage_xml_missing (coverage_file : string) (w : World) :
  files w !! coverage_file = None ->
  _parse_coverage_xml XML coverage_file w =
    (w, Raise (malformed_report coverage_file
                 ("[Errno 2] No such file or directory: " +:+ Str.repr coverage_file))).
Proof.
  intros Hf. unfold _parse_coverage_xml, try_except, ET_parse, mbind, io_bind, read_text.
  rewrite Hf. reflexivity.
Qed.

Lemma _parse_coverage_xml_malformed (coverage_file data msg : string) (w : World) :
  files w !! coverage_file = Some data -> XML data = Malformed msg ->
  _parse_coverage_xml XML coverage_file w = (w, Raise (malformed_report coverage_file msg)).
Proof.
  intros Hf Hx. unfold _parse_coverage_xml, try_except, ET_parse, mbind, io_bind, read_text.
  rewrite Hf, Hx. reflexivity.
Qed.

Lemma _parse_coverage_xml_tree (coverage_file data : string) (root : Element) (w : World) :
  files w !! coverage_file = Some data -> XML data = Tree root ->
  _parse_coverage_xml XML coverage_file w = (w, handle coverage_file (resolve root)).
Proof.
  intros Hf Hx. unfold _parse_coverage_xml, try_except, ET_parse, mbind, io_bind, read_text.
  rewrite Hf, Hx. unfold mret, io_ret, lift, raise, lift.
  change (result_bind _ _ (fun x => Float.mul_int x 100) (Float.of_string ?s))
    with (rate_percent s).
  unfold resolve, first_rate. simpl first_some. unfold rate_attr at 1.
  assert (Hloop : forall ps,
    match package_loop ps with
    | Ok a => (w, Ok a)
    | Raise e =>
        if caught e then (w, Raise (malformed_report coverage_file (exn_str e)))
        else (w, Raise e)
    end =
    (w, handle coverage_file
          match first_some rate_attr ps with
          | Some s => rate_percent s
          | None => Raise (ValueError "Could not find coverage data in XML")
          end)).
  { intros ps. rewrite package_loop_first. unfold handle.
    destruct (first_some rate_attr ps) as [s'|]; [|reflexivity].
    destruct (rate_percent s') as [x|e]; [reflexivity|]. destruct (caught e); reflexivity. }
  destruct (get root "line-rate") as [s|] eqn:Hg; [|apply Hloop].
  destruct (truthy s); [|apply Hloop].
  unfold handle. destruct (rate_percent s) as [x|e]; [reflexivity|].
  destruct (caught e); reflexivity.
Qed.

Lemma handle_rate (coverage_file s : string) :
  handle coverage_file (rate_percent s) =
    match Float.parse s with
    | Some x => Ok (Float.mul x hundred)
    | None =>
        Raise (malformed_report coverage_file
                 ("could not convert string to float: " +:+ Str.repr s))
    end.
Proof. rewrite rate_percent_parse. destruct (Float.parse s); reflexivity. Qed.

(** Extraction reads the world and leaves it as it is. *)
Lemma _parse_coverage_xml_world (coverage_file : string) (w : World) :
  fst (_parse_coverage_xml XML coverage_file w) = w.
Proof.
  destruct (files w !! coverage_file) as [data|] eqn:Hf.
  - destruct (XML data) as [root|msg] eqn:Hx.
    + erewrite _parse_coverage_xml_tree by eassumption. reflexivity.
    + erewrite _parse_coverage_xml_malformed by eassumption. reflexivity.
  - rewrite _parse_coverage_xml_missing by assumption. reflexivity.
Qed.

End Extraction.


Lemma mul_comm (x y : Float.float) : Float.mul x y = Float.mul y x.
Proof.
  unfold Float.mul, SFmul.
  destruct x as [sx|sx| |sx mx ex], y as [sy|sy| |sy my ey];
    rewrite ?(xorb_comm sx sy), ?(Pos.mul_comm mx my), ?(Z.add_comm ex ey); reflexivity.
Qed.









(** ** Rendering *)

Lemma append_assoc (a b c : string) : (a +:+ b) +:+ c = a +:+ b +:+ c.
Proof.
  induction a as [|x a IH]; [reflexivity|].
  change (String x ((a +:+ b) +:+ c) = String x (a +:+ b +:+ c)). f_equal. exact IH.
Qed.

Lemma length_upper (s : string) : String.length (Str.upper s) = String.length s.
Proof. induction s as [|c s IH]; simpl; congruence. Qed.

Lemma len_upper (s : string) : Str.len (Str.upper s) = Str.len s.
Proof. unfold Str.len. rewrite length_upper. reflexivity. Qed.



Lemma _calculate_text_width_estimate (text : string) (font_size : Z) :
  _calculate_text_width text font_size = estimate (Str.len text) font_size.
Proof. reflexivity. Qed.

Lemma flat_width (title text color : string) :
  Str.len title < 2 ^ 63 -> Str.len text < 2 ^ 63 ->
  exists tw xw doc,
    _calculate_text_width title 11 = Ok tw /\
    _calculate_text_width text 11 = Ok xw /\
    _flat_badge_template title text color = Ok doc /\
    has_width doc (tw + xw + 20).
Proof.
  intros Ht Hx.
  destruct (_calculate_text_width_defined title 11) as [tw Etw]; [lia | simpl; lia |].
  destruct (_calculate_text_width_defined text 11) as [xw Exw]; [lia | simpl; lia |].
  exists tw, xw. unfold _flat_badge_template. rewrite Etw, Exw.
  eexists. split; [reflexivity|]. split; [reflexivity|]. split; [reflexivity|].
  unfold has_width. eexists. reflexivity.
Qed.

Lemma plastic_width (title text color : string) :
  Str.len title < 2 ^ 63 -> Str.len text < 2 ^ 63 ->
  exists tw xw doc,
    _calculate_text_width title 11 = Ok tw /\
    _calculate_text_width text 11 = Ok xw /\
    _plastic_badge_template title text color = Ok doc /\
    has_width doc (tw + xw + 20).
Proof.
  intros Ht Hx.
  destruct (_calculate_text_width_defined title 11) as [tw Etw]; [lia | simpl; lia |].
  destruct (_calculate_text_width_defined text 11) as [xw Exw]; [lia | simpl; lia |].
  exists tw, xw. unfold _plastic_badge_template. rewrite Etw, Exw.
  eexists. split; [reflexivity|]. split; [reflexivity|]. split; [reflexivity|].
  unfold has_width. eexists. reflexivity.
Qed.

Lemma for_the_badge_width (title text color : string) :
  Str.len title < 2 ^ 63 -> Str.len text < 2 ^ 63 ->
  exists tw xw doc,
    _calculate_text_width (Str.upper title) 12 = Ok tw /\
    _calculate_text_width (Str.upper text) 12 = Ok xw /\
    _for_the_badge_template title text color = Ok doc /\
    has_width doc (tw + xw + 24).
Proof.
  intros Ht Hx.
  destruct (_calculate_text_width_defined (Str.upper title) 12) as [tw Etw];
    [rewrite len_upper; lia | simpl; lia |].
  destruct (_calculate_text_width_defined (Str.upper text) 12) as [xw Exw];
    [rewrite len_upper; lia | simpl; lia |].
  exists tw, xw. unfold _for_the_badge_template. cbv zeta. rewrite Etw, Exw.
  eexists. split; [reflexivity|]. split; [reflexivity|]. split; [reflexivity|].
  unfold has_width. eexists. reflexivity.
Qed.

Lemma forallb_below (f : Z -> bool) (k : nat) :
  forallb f (map Z.of_nat (seq 0 k)) = true ->
  forall n, 0 <= n < Z.of_nat k -> f n = true.
Proof.
  intros H n Hn. rewrite forallb_forall in H. apply H.
  apply in_map_iff. exists (Z.to_nat n). split; [lia|].
  apply in_seq. lia.
Qed.

Lemma estimate_agrees (n : Z) :
  0 <= n < 4096 -> agrees_11 n = true /\ agrees_12 n = true.
Proof.
  intros Hn. split.
  - apply (forallb_below agrees_11 4096); [vm_compute; reflexivity | exact Hn].
  - apply (forallb_below agrees_12 4096); [vm_compute; reflexivity | exact Hn].
Qed.

Lemma agrees_11_estimate (n : Z) :
  agrees_11 n = true -> estimate n 11 = Ok (spec_text_width n 11).
Proof.
  unfold agrees_11. destruct (estimate n 11) as [w|e]; [|discriminate].
  intros H. apply Z.eqb_eq in H. rewrite H. reflexivity.
Qed.

Lemma agrees_12_estimate (n : Z) :
  agrees_12 n = true ->
  estimate n 12 = Ok (spec_text_width n 12) \/
  (n mod 5 = 0 /\ estimate n 12 = Ok (spec_text_width n 12 - 1)).
Proof.
  unfold agrees_12. destruct (estimate n 12) as [w|e]; [|discriminate].
  intros H. apply orb_true_iff in H as [H|H].
  - left. apply Z.eqb_eq in H. rewrite H. reflexivity.
  - right. apply andb_true_iff in H as [H5 H]. apply Z.eqb_eq in H5, H.
    rewrite H. split; [exact H5 | reflexivity].
Qed.

(** C5, as amended. The width attribute of a badge is the sum of the two
    estimated text widths and of the padding of the style: 20 for flat and
    for plastic, at font size 11, and 24 for for-the-badge, at font size 12
    and on the upper-cased title and value.  The estimate of a text of [n]
    characters is [int(n * (font_size * 0.6))] on floats; below 4096
    characters it is the formula of the specification at size 11, and at size
    12 it is that formula or, for some multiples of 5, one less. *)
Theorem badge_total_width (title text color : string) :
  Str.len title < 2 ^ 63 -> Str.len text < 2 ^ 63 ->
  (exists tw xw doc,
     _calculate_text_width title 11 = Ok tw /\
     _calculate_text_width text 11 = Ok xw /\
     _flat_badge_template title text color = Ok doc /\
     has_width doc (tw + xw + 20)) /\
  (exists tw xw doc,
     _calculate_text_width title 11 = Ok tw /\
     _calculate_text_width text 11 = Ok xw /\
     _plastic_badge_template title text color = Ok doc /\
     has_width doc (tw + xw + 20)) /\
  (exists tw xw doc,
     _calculate_text_width (Str.upper title) 12 = Ok tw /\
     _calculate_text_width (Str.upper text) 12 = Ok xw /\
     _for_the_badge_template title text color = Ok doc /\
     has_width doc (tw + xw + 24)) /\
  (forall s : string,
     Str.len s < 4096 ->
     _calculate_text_width s 11 = Ok (spec_text_width (Str.len s) 11) /\
     (_calculate_text_width s 12 = Ok (spec_text_width (Str.len s) 12) \/
      (Str.len s mod 5 = 0 /\
       _calculate_text_width s 12 = Ok (spec_text_width (Str.len s) 12 - 1)))).
Proof.
  intros Ht Hx. split; [|split; [|split]].
  - apply flat_width; assumption.
  - apply plastic_width; assumption.
  - apply for_the_badge_width; assumption.
  - intros s Hs. rewrite !_calculate_text_width_estimate.
    destruct (estimate_agrees (Str.len s)) as [H11 H12]; [unfold Str.len in *; lia|].
    split; [apply agrees_11_estimate | apply agrees_12_estimate]; assumption.
Qed.

Lemma badge_total_width_witness :
  (exists tw xw doc,
     _calculate_text_width (Str.upper "branch coverage") 12 = Ok tw /\
     _calculate_text_width (Str.upper "95%") 12 = Ok xw /\
     _for_the_badge_template "branch coverage" "95%" "brightgreen" = Ok doc /\
     has_width doc (tw + xw + 24)) /\
  _calculate_text_width "branch coverage" 11 =
    Ok (spec_text_width (Str.len "branch coverage") 11).
Proof.
  destruct (badge_total_width "branch coverage" "95%" "brightgreen")
    as (_ & _ & H3 & H4); [vm_compute; reflexivity | vm_compute; reflexivity |].
  split; [exact H3 | apply H4; vm_compute; reflexivity].
Defined.

(** C5, as stated, fails: a title of 15 characters in the for-the-badge style
    is estimated at 107 and not at 108, which is what the formula gives on
    the reals and on the floats from left to right; the badge is 152 wide, not
    153. *)
Lemma for_the_badge_width_below_formula :
  spec_text_width 15 12 = 108 /\
  spec_text_width_float 15 12 = Ok 108 /\
  spec_text_width 3 12 = 21 /\
  match _for_the_badge_template "branch coverage" "95%" "brightgreen" with
  | Ok doc =>
      has_width doc 152 /\
      ~ has_width doc (spec_text_width 15 12 + spec_text_width 3 12 + 24)
  | Raise _ => False
  end.
Proof.
  split; [reflexivity|]. split; [reflexivity|]. split; [reflexivity|].
  assert (E : exists doc, _for_the_badge_template "branch coverage" "95%" "brightgreen" = Ok doc)
    by (eexists; vm_compute; reflexivity).
  destruct E as [doc E]. rewrite E. vm_compute in E. injection E as <-.
  split.
  - eexists. vm_compute. reflexivity.
  - intros [rest H]. vm_compute in H. discriminate H.
Qed.

Lemma badge_templates_flat : getitem badge_templates "flat" = Ok _flat_badge_template.
Proof. reflexivity. Qed.

Lemma badge_templates_unknown (style : string) :
  style <> "flat" -> style <> "plastic" -> style <> "for-the-badge" ->
  badge_templates !! style = None.
Proof.
  intros H1 H2 H3. unfold badge_templates.
  rewrite !lookup_insert_ne by congruence. apply lookup_singleton_ne. congruence.
Qed.

Lemma _generate_svg_badge_known (title text color : string) :
  _generate_svg_badge title text color "flat" = _flat_badge_template title text color /\
  _generate_svg_badge title text color "plastic" = _plastic_badge_template title text color /\
  _generate_svg_badge title text color "for-the-badge" =
    _for_the_badge_template title text color.
Proof. repeat split; reflexivity. Qed.

(** C6. A style outside the three known ones renders as flat, and rendering
    returns a document for every style. *)
Theorem render_unknown_style_as_flat (title text color style : string) :
  (style <> "flat" -> style <> "plastic" -> style <> "for-the-badge" ->
   _generate_svg_badge title text color style = _generate_svg_badge title text color "flat") /\
  (Str.len title < 2 ^ 63 -> Str.len text < 2 ^ 63 ->
   exists doc, _generate_svg_badge title text color style = Ok doc).
Proof.
  split.
  - intros H1 H2 H3. unfold _generate_svg_badge.
    rewrite badge_templates_flat, (badge_templates_unknown style H1 H2 H3). reflexivity.
  - intros Ht Hx.
    destruct (flat_width title text color Ht Hx) as (_ & _ & d1 & _ & _ & E1 & _).
    destruct (plastic_width title text color Ht Hx) as (_ & _ & d2 & _ & _ & E2 & _).
    destruct (for_the_badge_width title text color Ht Hx) as (_ & _ & d3 & _ & _ & E3 & _).
    destruct (_generate_svg_badge_known title text color) as (K1 & K2 & K3).
    destruct (decide (style = "flat")) as [->|H1]; [exists d1; congruence|].
    destruct (decide (style = "plastic")) as [->|H2]; [exists d2; congruence|].
    destruct (decide (style = "for-the-badge")) as [->|H3]; [exists d3; congruence|].
    exists d1. unfold _generate_svg_badge.
    rewrite badge_templates_flat, (badge_templates_unknown style H1 H2 H3). exact E1.
Qed.

Lemma render_unknown_style_as_flat_witness :
  _generate_svg_badge "coverage" "95%" "brightgreen" "social" =
    _generate_svg_badge "coverage" "95%" "brightgreen" "flat" /\
  exists doc, _generate_svg_badge "coverage" "95%" "brightgreen" "social" = Ok doc.
Proof.
  destruct (render_unknown_style_as_flat "coverage" "95%" "brightgreen" "social") as [H1 H2].
  split.
  - apply H1; discriminate.
  - apply H2; vm_compute; reflexivity.
Defined.

Lemma contains_append_r (a b part : string) : contains b part -> contains (a +:+ b) part.
Proof.
  intros (x & y & ->). exists (a +:+ x), y. rewrite append_assoc. reflexivity.
Qed.



(** ** Orchestration *)



(** The scenarios of the specification, and the rounding of the product. *)
Example extraction_of_0_95 :
  rate_percent "0.95" = Ok (S754_finite false 6685030696878080 (-46)) /\
  Float.to_Q (S754_finite false 6685030696878080 (-46)) == 95 # 1 /\
  _get_coverage_color (S754_finite false 6685030696878080 (-46)) 80 60 = "brightgreen" /\
  Float.format_0f (S754_finite false 6685030696878080 (-46)) = "95".
Proof. repeat split; vm_compute; reflexivity. Qed.

Example extraction_of_0_45 :
  rate_percent "0.45" = Ok (S754_finite false 6333186975989760 (-47)) /\
  _get_coverage_color (S754_finite false 6333186975989760 (-47)) 80 60 = "red" /\
  color_map !! "red" = Some "#e05d44".
Proof. repeat split; vm_compute; reflexivity. Qed.

Example extraction_of_0_07 :
  rate_percent "0.07" = Ok (S754_finite false 7881299347898369 (-50)) /\
  ~ Float.to_Q (S754_finite false 7881299347898369 (-50)) == 7 # 1.
Proof. split; [vm_compute; reflexivity | intros H; vm_compute in H; discriminate H]. Qed.

(** A missing file and a text that is not XML. *)
Example extraction_of_no_report :
  _parse_coverage_xml MiniXML.XML "coverage.xml" sample_world =
    (sample_world,
     Raise (RuntimeError
              ("Error parsing coverage file coverage.xml: " +:+
               "[Errno 2] No such file or directory: 'coverage.xml'"))) /\
  _parse_coverage_xml MiniXML.XML "broken.xml" sample_world =
    (sample_world,
     Raise (RuntimeError "Error parsing coverage file broken.xml: unclosed token")).
Proof. split; vm_compute; reflexivity. Qed.

(** A run that succeeds writes the badge and reports on the console. *)
Example generate_top :
  let '(w, r) :=
    generate_badge MiniXML.XML "top.xml" "badge.svg" "flat" "coverage" 80 60 sample_world in
  r = Ok tt /\
  stdout w = ["Generated coverage badge: badge.svg"; "Coverage: 85% (brightgreen)"] /\
  files w !! "badge.svg" =
    match _flat_badge_template "coverage" "85%" "brightgreen" with
    | Ok doc => Some doc
    | Raise _ => None
    end.
Proof. vm_compute. repeat split; reflexivity. Qed.

(** * Further properties *)

(** ** Runs of [generate_badge] and of [main] *)

Section Runs.

Variable XML : string -> parsed.


(** A run of [generate_badge], stage by stage. *)
Lemma generate_badge_stages (coverage_file output_file style title : string)
    (min_good min_ok : Z) (w : World) :
  generate_badge XML coverage_file output_file style title min_good min_ok w =
    match snd (_parse_coverage_xml XML coverage_file w) with
    | Raise e => (w, Raise e)
    | Ok x =>
        let color := _get_coverage_color x min_good min_ok in
        let coverage_text := Float.format_0f x +:+ "%" in
        match _generate_svg_badge title coverage_text color style with
        | Raise e => (w, Raise e)
        | Ok svg =>
            (mkWorld (<[output_file := svg]> (files w))
               (stdout w ++ report_lines output_file coverage_text color)%list,
             Ok tt)
        end
    end.
Proof.
  unfold generate_badge. unfold mbind at 1. unfold io_bind.
  pose proof (_parse_coverage_xml_world XML coverage_file w) as Hw.
  destruct (_parse_coverage_xml XML coverage_file w) as [w1 [x|e]]; cbn [fst] in Hw; subst w1;
    [|reflexivity].
  cbn [snd]. cbv zeta. unfold mbind at 1. unfold io_bind, lift.
  destruct (_generate_svg_badge _ _ _ _) as [svg|e]; [|reflexivity].
  unfold mbind, io_bind, write_text, print, report_lines. simpl.
  rewrite <- app_assoc. reflexivity.
Qed.

(** X1. A successful run of [generate_badge] comes from a report that
    yields a percentage and a rendering that yields a document; it stores that
    document under the output path, leaves every other file as it was, and
    adds its two lines to the console. *)
Theorem generate_badge_writes_one_file (coverage_file output_file style title : string)
    (min_good min_ok : Z) (w w' : World) :
  generate_badge XML coverage_file output_file style title min_good min_ok w = (w', Ok tt) ->
  exists x svg,
    _parse_coverage_xml XML coverage_file w = (w, Ok x) /\
    _generate_svg_badge title (Float.format_0f x +:+ "%")
      (_get_coverage_color x min_good min_ok) style = Ok svg /\
    files w' !! output_file = Some svg /\
    (forall path, path <> output_file -> files w' !! path = files w !! path) /\
    stdout w' =
      (stdout w ++
       report_lines output_file (Float.format_0f x +:+ "%")
         (_get_coverage_color x min_good min_ok))%list.
Proof.
  rewrite generate_badge_stages.
  pose proof (_parse_coverage_xml_world XML coverage_file w) as Hw.
  destruct (_parse_coverage_xml XML coverage_file w) as [w1 [x|e]]; cbn [fst snd] in *;
    subst w1; [|discriminate].
  cbv zeta. destruct (_generate_svg_badge _ _ _ _) as [svg|e] eqn:Es; [|discriminate].
  intros [= <-]. exists x, svg. cbn [files stdout].
  split; [reflexivity|]. split; [exact Es|]. split; [apply lookup_insert_eq|].
  split; [|reflexivity].
  intros path Hp. apply lookup_insert_ne. congruence.
Qed.



(** X4. With no file at the report path, [main] returns 1, creates no file,
    and its one line names the path twice: in the message of the generator
    and in that of the operating system. *)
Theorem main_missing_report (args : Namespace) (w : World) :
  files w !! arg_coverage_file args = None ->
  main XML args w =
    (mkWorld (files w)
       (stdout w ++
        [mark_error +:+ " Error generating coverage badge: Error parsing coverage file " +:+
         arg_coverage_file args +:+ ": [Errno 2] No such file or directory: " +:+
         Str.repr (arg_coverage_file args)])%list,
     Ok 1).
Proof.
  intros Hf. unfold main, try_except. unfold mbind at 1. unfold io_bind.
  rewrite generate_badge_stages, (_parse_coverage_xml_missing XML _ _ Hf). reflexivity.
Qed.

End Runs.

Lemma generate_badge_writes_one_file_witness :
  exists x svg,
    _parse_coverage_xml MiniXML.XML "top.xml" sample_world = (sample_world, Ok x) /\
    _generate_svg_badge "coverage" (Float.format_0f x +:+ "%")
      (_get_coverage_color x 80 60) "flat" = Ok svg /\
    files (written_world "badge.svg") !! "badge.svg" = Some svg /\
    (forall path, path <> "badge.svg" ->
       files (written_world "badge.svg") !! path = files sample_world !! path) /\
    stdout (written_world "badge.svg") =
      (stdout sample_world ++
       report_lines "badge.svg" (Float.format_0f x +:+ "%") (_get_coverage_color x 80 60))%list.
Proof.
  apply (generate_badge_writes_one_file MiniXML.XML "top.xml" "badge.svg" "flat" "coverage"
           80 60 sample_world (written_world "badge.svg")).
  vm_compute. reflexivity.
Defined.


Lemma main_missing_report_witness :
  main MiniXML.XML (mkNamespace "coverage.xml" "badge.svg" "flat" "coverage" 80 60) sample_world =
    (mkWorld (files sample_world)
       (stdout sample_world ++
        [mark_error +:+ " Error generating coverage badge: Error parsing coverage file " +:+
         "coverage.xml" +:+ ": [Errno 2] No such file or directory: " +:+
         Str.repr "coverage.xml"])%list,
     Ok 1).
Proof.
  apply (main_missing_report MiniXML.XML
           (mkNamespace "coverage.xml" "badge.svg" "flat" "coverage" 80 60) sample_world).
  vm_compute. reflexivity.
Defined.

(** ** The width estimate *)

Lemma binary_round_aux_sign (sx : bool) (mx ex : Z) (lx : location) :
  sx = false -> sign_clear (binary_round_aux 53 1024 sx mx ex lx).
Proof.
  intros ->. unfold binary_round_aux.
  destruct (shr_fexp 53 1024 mx ex lx) as [mrs e].
  destruct (shr_fexp 53 1024 _ e loc_Exact) as [mrs' e'].
  destruct (shr_m mrs') as [|m|m]; simpl; [reflexivity | | exact I].
  destruct (e' <=? 1024 - 53); reflexivity.
Qed.

Lemma of_Z_sign (i : Z) (x : Float.float) : 0 <= i -> Float.of_Z i = Some x -> sign_clear x.
Proof.
  intros Hi. unfold Float.of_Z, binary_normalize, Float.prec, Float.emax.
  destruct i as [|n|n]; try lia.
  - intros [= <-]. reflexivity.
  - destruct (Float.is_finite _); [|discriminate]. intros [= <-].
    unfold binary_round. destruct (shl_align _ _ _) as [mz ez].
    apply binary_round_aux_sign. reflexivity.
Qed.

Lemma mul_sign (x y : Float.float) : sign_clear x -> sign_clear y -> sign_clear (Float.mul x y).
Proof.
  unfold Float.mul, SFmul, Float.prec, Float.emax.
  destruct x as [sx|sx| |sx mx ex], y as [sy|sy| |sy my ey]; simpl;
    try (intros -> ->; reflexivity); try (intros; exact I).
  intros -> ->. apply binary_round_aux_sign. reflexivity.
Qed.

Lemma int_mul_sign (i : Z) (x y : Float.float) :
  0 <= i -> sign_clear x -> Float.int_mul i x = Ok y -> sign_clear y.
Proof.
  intros Hi Hx. unfold Float.int_mul, Float.of_int.
  destruct (Float.of_Z i) as [f|] eqn:Hf; [|discriminate].
  intros [= <-]. apply mul_sign; [apply (of_Z_sign i f Hi Hf) | exact Hx].
Qed.

Lemma to_int_sign (x : Float.float) (w : Z) : sign_clear x -> Float.to_int x = Ok w -> 0 <= w.
Proof.
  destruct x as [s|s| |s m e]; cbn [sign_clear Float.to_int]; intros Hs Hw.
  - injection Hw as <-. lia.
  - discriminate Hw.
  - discriminate Hw.
  - injection Hw as <-. subst s. destruct (Z.leb_spec 0 e).
    + apply Z.mul_nonneg_nonneg; [lia | apply Z.pow_nonneg; lia].
    + apply Z.div_pos; [lia | apply Z.pow_pos_nonneg; lia].
Qed.

Lemma estimate_nonneg (n font_size w : Z) :
  0 <= n -> 0 <= font_size -> estimate n font_size = Ok w -> 0 <= w.
Proof.
  intros Hn Hfs. unfold estimate.
  destruct (Float.int_mul font_size lit_0_6) as [cw|e] eqn:Ecw; [|discriminate].
  cbn [mbind result_bind].
  destruct (Float.int_mul n cw) as [x|e] eqn:Ex; [|discriminate].
  cbn [mbind result_bind]. apply to_int_sign.
  apply (int_mul_sign n cw x Hn); [|exact Ex].
  apply (int_mul_sign font_size lit_0_6 cw Hfs); [reflexivity | exact Ecw].
Qed.

Lemma len_nonneg (s : string) : 0 <= Str.len s.
Proof. unfold Str.len. lia. Qed.

Lemma _calculate_text_width_nonneg (text : string) (font_size w : Z) :
  0 <= font_size -> _calculate_text_width text font_size = Ok w -> 0 <= w.
Proof. intros Hfs. apply estimate_nonneg; [apply len_nonneg | exact Hfs]. Qed.

Lemma estimate_empty (font_size : Z) : Z.abs font_size < 2 ^ 64 -> estimate 0 font_size = Ok 0.
Proof.
  intros Hfs. unfold estimate.
  destruct (int_mul_small (-53) (-53) font_size lit_0_6 Hfs lit_0_6_small)
    as (cw & -> & Hcw); try lia.
  cbn [mbind result_bind].
  destruct cw as [s|s| |s m e]; try contradiction; reflexivity.
Qed.

Lemma grows_below (n : Z) : 0 <= n < 4096 -> grows n = true.
Proof. apply (forallb_below grows 4096). vm_compute. reflexivity. Qed.

Lemma estimate_monotone (k : nat) (n : Z) (a b a' b' : Z) :
  0 <= n -> n + Z.of_nat k <= 4096 ->
  estimate n 11 = Ok a -> estimate (n + Z.of_nat k) 11 = Ok a' ->
  estimate n 12 = Ok b -> estimate (n + Z.of_nat k) 12 = Ok b' ->
  a <= a' /\ b <= b'.
Proof.
  revert a' b'. induction k as [|k IH]; intros a' b' Hn Hk Ea Ea' Eb Eb'.
  - rewrite Z.add_0_r in Ea', Eb'.
    assert (a = a') by congruence. assert (b = b') by congruence. lia.
  - replace (n + Z.of_nat (S k)) with (n + Z.of_nat k + 1) in * by lia.
    pose proof (grows_below (n + Z.of_nat k) ltac:(lia)) as G. unfold grows in G.
    rewrite Ea', Eb' in G.
    destruct (estimate (n + Z.of_nat k) 11) as [c|] eqn:Ec; [|discriminate].
    destruct (estimate (n + Z.of_nat k) 12) as [d|] eqn:Ed; [|discriminate].
    apply andb_true_iff in G as [G1 G2]. apply Z.leb_le in G1, G2.
    destruct (IH c d Hn ltac:(lia) Ea eq_refl Eb eq_refl). lia.
Qed.

(** X5. The width estimate is 0 for the empty text and never negative; it
    depends on the text through its length only; and below 4096 characters a
    longer text is never estimated narrower, at the font sizes 11 and 12. *)
Theorem text_width_shape (text text' : string) (font_size : Z) :
  0 <= font_size < 2 ^ 64 ->
  _calculate_text_width "" font_size = Ok 0 /\
  (forall w, _calculate_text_width text font_size = Ok w -> 0 <= w) /\
  (Str.len text = Str.len text' ->
   _calculate_text_width text font_size = _calculate_text_width text' font_size) /\
  (Str.len text <= Str.len text' <= 4096 ->
   forall a a' b b',
     _calculate_text_width text 11 = Ok a -> _calculate_text_width text' 11 = Ok a' ->
     _calculate_text_width text 12 = Ok b -> _calculate_text_width text' 12 = Ok b' ->
     a <= a' /\ b <= b').
Proof.
  intros Hfs. split; [|split; [|split]].
  - rewrite _calculate_text_width_estimate. apply estimate_empty. lia.
  - intros w. apply _calculate_text_width_nonneg. lia.
  - intros E. rewrite !_calculate_text_width_estimate, E. reflexivity.
  - intros Hl a a' b b'. rewrite !_calculate_text_width_estimate.
    pose proof (len_nonneg text) as H0.
    replace (Str.len text') with (Str.len text + Z.of_nat (Z.to_nat (Str.len text' - Str.len text)))
      by lia.
    apply estimate_monotone; lia.
Qed.

Lemma text_width_shape_witness :
  _calculate_text_width "" 11 = Ok 0 /\
  (forall w, _calculate_text_width "coverage" 11 = Ok w -> 0 <= w) /\
  _calculate_text_width "coverage" 11 = _calculate_text_width "COVERAGE" 11.
Proof.
  destruct (text_width_shape "coverage" "COVERAGE" 11 ltac:(lia)) as (H1 & H2 & H3 & _).
  split; [exact H1 | split; [exact H2 | apply H3; reflexivity]].
Defined.

(** ** The layout of the documents *)

Lemma flat_layout (title text color : string) (tw xw : Z) :
  _calculate_text_width title 11 = Ok tw -> _calculate_text_width text 11 = Ok xw ->
  exists doc,
    _flat_badge_template title text color = Ok doc /\
    layout doc 20 (tw + xw + 20) (tw + 10) (xw + 10) (resolve_color color)
      (tw / 2 + 6) (tw + xw / 2 + 10) "140" title text.
Proof.
  intros Etw Exw. unfold _flat_badge_template. rewrite Etw, Exw.
  eexists. split; [reflexivity|].
  unfold layout, rectangles, text_element, resolve_color.
  split; [eexists; reflexivity|].
  split; [|split; [|split; [|split]]].
  - do 13 apply contains_append_r.
    exists (Str.lit "' height='20' rx='3' fill='#fff'/>
    </clipPath>
    <g clip-path='url(#r)'>
        "). eexists. rewrite !append_assoc. reflexivity.
  - do 3 apply contains_append_r.
    exists (Str.lit "' height='20' role='img'"). eexists. rewrite !append_assoc. reflexivity.
  - do 7 apply contains_append_r.
    exists (Str.lit "'>
    "). eexists. rewrite !append_assoc. reflexivity.
  - do 29 apply contains_append_r.
    exists "</text>
        ". eexists. rewrite !append_assoc. reflexivity.
  - do 37 apply contains_append_r.
    exists "</text>
        ". eexists. rewrite !append_assoc. reflexivity.
Qed.

Lemma plastic_layout (title text color : string) (tw xw : Z) :
  _calculate_text_width title 11 = Ok tw -> _calculate_text_width text 11 = Ok xw ->
  exists doc,
    _plastic_badge_template title text color = Ok doc /\
    layout doc 18 (tw + xw + 20) (tw + 10) (xw + 10) (resolve_color color)
      (tw / 2 + 6) (tw + xw / 2 + 10) "130" title text.
Proof.
  intros Etw Exw. unfold _plastic_badge_template. rewrite Etw, Exw.
  eexists. split; [reflexivity|].
  unfold layout, rectangles, text_element, resolve_color.
  split; [eexists; reflexivity|].
  split; [|split; [|split; [|split]]].
  - do 13 apply contains_append_r.
    exists (Str.lit "' height='18' rx='4' fill='#fff'/>
    </clipPath>
    <g clip-path='url(#r)'>
        "). eexists. rewrite !append_assoc. reflexivity.
  - do 3 apply contains_append_r.
    exists (Str.lit "' height='18' role='img'"). eexists. rewrite !append_assoc. reflexivity.
  - do 7 apply contains_append_r.
    exists (Str.lit "'>
    "). eexists. rewrite !append_assoc. reflexivity.
  - do 29 apply contains_append_r.
    exists "</text>
        ". eexists. rewrite !append_assoc. reflexivity.
  - do 37 apply contains_append_r.
    exists "</text>
        ". eexists. rewrite !append_assoc. reflexivity.
Qed.

Lemma for_the_badge_layout (title text color : string) (tw xw : Z) :
  _calculate_text_width (Str.upper title) 12 = Ok tw ->
  _calculate_text_width (Str.upper text) 12 = Ok xw ->
  exists doc,
    _for_the_badge_template title text color = Ok doc /\
    layout doc 28 (tw + xw + 24) (tw + 16) (xw + 8) (resolve_color color)
      (tw / 2 + 8) (tw + xw / 2 + 16) "175" (Str.upper title) (Str.upper text).
Proof.
  intros Etw Exw. unfold _for_the_badge_template. cbv zeta. rewrite Etw, Exw.
  eexists. split; [reflexivity|].
  unfold layout, rectangles, text_element, resolve_color.
  split; [eexists; reflexivity|].
  split; [|split; [|split; [|split]]].
  - do 11 apply contains_append_r.
    exists (Str.lit "</title>
    <g shape-rendering='crispEdges'>
        "). eexists. rewrite !append_assoc. reflexivity.
  - do 3 apply contains_append_r.
    exists (Str.lit "' height='28' role='img'"). eexists. rewrite !append_assoc. reflexivity.
  - do 7 apply contains_append_r.
    exists (Str.lit "'>
    "). eexists. rewrite !append_assoc. reflexivity.
  - do 21 apply contains_append_r.
    exists (Str.lit "text-rendering='geometricPrecision' font-weight='bold' font-size='100'>
        "). eexists. rewrite !append_assoc. reflexivity.
  - do 25 apply contains_append_r.
    exists "</text>
        ". eexists. rewrite !append_assoc. reflexivity.
Qed.

(** The document of a style, measured and laid out with the constants of
    that style. *)
Lemma _generate_svg_badge_layout (title text color style : string) :
  Str.len title < 2 ^ 63 -> Str.len text < 2 ^ 63 ->
  let sh := shape_of style in
  exists tw xw doc,
    _calculate_text_width (cased sh title) (font_size sh) = Ok tw /\
    _calculate_text_width (cased sh text) (font_size sh) = Ok xw /\
    0 <= tw /\ 0 <= xw /\
    _generate_svg_badge title text color style = Ok doc /\
    layout doc (height sh) (tw + xw + (label_pad sh + value_pad sh))
      (tw + label_pad sh) (xw + value_pad sh) (resolve_color color)
      (tw / 2 + label_offset sh) (tw + xw / 2 + value_offset sh)
      (baseline sh) (cased sh title) (cased sh text).
Proof.
  intros Ht Hx. cbv zeta. unfold shape_of.
  destruct (_generate_svg_badge_known title text color) as (K1 & K2 & K3).
  destruct (String.eqb_spec style "for-the-badge") as [->|H3].
  - cbn [cased font_size height label_pad value_pad label_offset value_offset baseline].
    destruct (_calculate_text_width_defined (Str.upper title) 12) as [tw Etw];
      [rewrite len_upper; lia | simpl; lia |].
    destruct (_calculate_text_width_defined (Str.upper text) 12) as [xw Exw];
      [rewrite len_upper; lia | simpl; lia |].
    destruct (for_the_badge_layout title text color tw xw Etw Exw) as (doc & E & L).
    exists tw, xw, doc. rewrite K3.
    repeat (split; [first [assumption | eapply _calculate_text_width_nonneg; [|eassumption]; lia]|]).
    replace (tw + xw + (16 + 8)) with (tw + xw + 24) by lia. exact L.
  - destruct (_calculate_text_width_defined title 11) as [tw Etw]; [lia | simpl; lia |].
    destruct (_calculate_text_width_defined text 11) as [xw Exw]; [lia | simpl; lia |].
    destruct (String.eqb_spec style "plastic") as [->|H2].
    + cbn [cased font_size height label_pad value_pad label_offset value_offset baseline].
      destruct (plastic_layout title text color tw xw Etw Exw) as (doc & E & L).
      exists tw, xw, doc. rewrite K2.
      repeat (split; [first [assumption | eapply _calculate_text_width_nonneg; [|eassumption]; lia]|]).
      replace (tw + xw + (10 + 10)) with (tw + xw + 20) by lia. exact L.
    + cbn [cased font_size height label_pad value_pad label_offset value_offset baseline].
      destruct (flat_layout title text color tw xw Etw Exw) as (doc & E & L).
      exists tw, xw, doc.
      assert (G : _generate_svg_badge title text color style = Ok doc).
      { destruct (decide (style = "flat")) as [->|H1]; [congruence|].
        unfold _generate_svg_badge.
        rewrite badge_templates_flat, (badge_templates_unknown style H1 H2 H3). exact E. }
      repeat (split; [first [assumption | eapply _calculate_text_width_nonneg; [|eassumption]; lia]|]).
      replace (tw + xw + (10 + 10)) with (tw + xw + 20) by lia. exact L.
Qed.

(** X6. In the document of every style the label rectangle and the value
    rectangle share the height of the badge, the second starts where the first
    ends, and their widths add up to the width of the badge; each is at least
    as wide as its padding, and the value rectangle is filled with the
    resolved colour. *)
Theorem badge_rectangles_tile (title text color style : string) :
  Str.len title < 2 ^ 63 -> Str.len text < 2 ^ 63 ->
  exists doc total label_width value_width,
    _generate_svg_badge title text color style = Ok doc /\
    has_width doc total /\
    contains doc
      (rectangles (height (shape_of style)) label_width value_width (resolve_color color)) /\
    label_width + value_width = total /\
    label_pad (shape_of style) <= label_width /\
    value_pad (shape_of style) <= value_width.
Proof.
  intros Ht Hx.
  destruct (_generate_svg_badge_layout title text color style Ht Hx)
    as (tw & xw & doc & _ & _ & Htw & Hxw & E & W & R & _).
  exists doc, (tw + xw + (label_pad (shape_of style) + value_pad (shape_of style))),
    (tw + label_pad (shape_of style)), (xw + value_pad (shape_of style)).
  repeat split; try assumption; lia.
Qed.

Lemma badge_rectangles_tile_witness :
  exists doc total label_width value_width,
    _generate_svg_badge "coverage" "95%" "brightgreen" "plastic" = Ok doc /\
    has_width doc total /\
    contains doc
      (rectangles (height (shape_of "plastic")) label_width value_width
         (resolve_color "brightgreen")) /\
    label_width + value_width = total /\
    label_pad (shape_of "plastic") <= label_width /\
    value_pad (shape_of "plastic") <= value_width.
Proof.
  apply (badge_rectangles_tile "coverage" "95%" "brightgreen" "plastic");
    vm_compute; reflexivity.
Defined.

(** X7. In the document of every style the label is anchored inside the
    label rectangle and the value inside the value rectangle: the abscissa of
    each foreground text element, a tenth of the number written, lies between
    the two edges of its rectangle. *)
Theorem badge_texts_inside_rectangles (title text color style : string) :
  Str.len title < 2 ^ 63 -> Str.len text < 2 ^ 63 ->
  let sh := shape_of style in
  exists doc label_width value_width label_x value_x,
    _generate_svg_badge title text color style = Ok doc /\
    contains doc (rectangles (height sh) label_width value_width (resolve_color color)) /\
    contains doc (text_element (label_x * 10) (baseline sh) (cased sh title)) /\
    contains doc (text_element (value_x * 10) (baseline sh) (cased sh text)) /\
    0 <= label_x <= label_width /\
    label_width <= value_x <= label_width + value_width.
Proof.
  intros Ht Hx sh.
  destruct (_generate_svg_badge_layout title text color style Ht Hx)
    as (tw & xw & doc & _ & _ & Htw & Hxw & E & _ & R & _ & _ & T1 & T2).
  fold sh in R, T1, T2.
  exists doc, (tw + label_pad sh), (xw + value_pad sh), (tw / 2 + label_offset sh),
    (tw + xw / 2 + value_offset sh).
  split; [exact E|]. split; [exact R|]. split; [exact T1|]. split; [exact T2|].
  assert (H1 : 0 <= tw / 2 <= tw) by (split; [apply Z.div_pos; lia | apply Z.div_le_upper_bound; lia]).
  assert (H2 : 0 <= xw / 2 <= xw) by (split; [apply Z.div_pos; lia | apply Z.div_le_upper_bound; lia]).
  subst sh. unfold shape_of.
  destruct (String.eqb style "for-the-badge"); [|destruct (String.eqb style "plastic")];
    cbn [label_pad value_pad label_offset value_offset]; lia.
Qed.

Lemma badge_texts_inside_rectangles_witness :
  exists doc label_width value_width label_x value_x,
    _generate_svg_badge "coverage" "95%" "red" "for-the-badge" = Ok doc /\
    contains doc
      (rectangles (height (shape_of "for-the-badge")) label_width value_width
         (resolve_color "red")) /\
    contains doc
      (text_element (label_x * 10) (baseline (shape_of "for-the-badge"))
         (cased (shape_of "for-the-badge") "coverage")) /\
    contains doc
      (text_element (value_x * 10) (baseline (shape_of "for-the-badge"))
         (cased (shape_of "for-the-badge") "95%")) /\
    0 <= label_x <= label_width /\
    label_width <= value_x <= label_width + value_width.
Proof.
  apply (badge_texts_inside_rectangles "coverage" "95%" "red" "for-the-badge");
    vm_compute; reflexivity.
Defined.

(** X8. Every style but for-the-badge shows the title and the value as they
    are given, whatever characters they hold: nothing is escaped and no case
    is changed, in the aria-label, in the title element and in the text
    elements. *)
Theorem badge_texts_verbatim (title text color style : string) :
  style <> "for-the-badge" ->
  Str.len title < 2 ^ 63 -> Str.len text < 2 ^ 63 ->
  exists doc y x1 x2,
    _generate_svg_badge title text color style = Ok doc /\
    contains doc (Str.lit " aria-label='" +:+ title +:+ ": " +:+ text +:+ Str.lit "'>") /\
    contains doc ("<title>" +:+ title +:+ ": " +:+ text +:+ "</title>") /\
    contains doc (text_element x1 y title) /\
    contains doc (text_element x2 y text).
Proof.
  intros Hs Ht Hx.
  destruct (_generate_svg_badge_layout title text color style Ht Hx)
    as (tw & xw & doc & _ & _ & _ & _ & E & _ & _ & A & T & T1 & T2).
  assert (C : cased (shape_of style) = fun s => s).
  { unfold shape_of. destruct (String.eqb_spec style "for-the-badge"); [contradiction|].
    destruct (String.eqb style "plastic"); reflexivity. }
  rewrite C in A, T, T1, T2. eauto 10.
Qed.

Lemma badge_texts_verbatim_witness :
  exists doc y x1 x2,
    _generate_svg_badge "a<b>" "x & y" "red" "flat" = Ok doc /\
    contains doc (Str.lit " aria-label='" +:+ "a<b>" +:+ ": " +:+ "x & y" +:+ Str.lit "'>") /\
    contains doc ("<title>" +:+ "a<b>" +:+ ": " +:+ "x & y" +:+ "</title>") /\
    contains doc (text_element x1 y "a<b>") /\
    contains doc (text_element x2 y "x & y").
Proof.
  apply (badge_texts_verbatim "a<b>" "x & y" "red" "flat");
    [discriminate | vm_compute; reflexivity | vm_compute; reflexivity].
Defined.

Lemma tier_resolves {A : Type} `{GeInt A} (coverage : A) (min_good min_ok : Z) :
  resolve_color (_get_coverage_color coverage min_good min_ok) =
    tier_hex coverage min_good min_ok.
Proof.
  unfold _get_coverage_color, tier_hex.
  destruct (ge_int coverage min_good); [reflexivity|].
  destruct (ge_int coverage min_ok); reflexivity.
Qed.

(** X9. Rendered with the colour that classification gives, the badge of
    every style has its value rectangle filled with the hexadecimal colour of
    the tier: #4c1 from [min_good] on, #dfb317 from [min_ok] on, #e05d44
    below; the name of the tier is never written as the fill. *)
Theorem badge_fill_of_tier (A : Type) (G : GeInt A) (coverage : A) (min_good min_ok : Z)
    (title text style : string) :
  Str.len title < 2 ^ 63 -> Str.len text < 2 ^ 63 ->
  exists doc label_width value_width,
    _generate_svg_badge title text (_get_coverage_color coverage min_good min_ok) style =
      Ok doc /\
    contains doc
      (rectangles (height (shape_of style)) label_width value_width
         (tier_hex coverage min_good min_ok)).
Proof.
  intros Ht Hx.
  destruct (_generate_svg_badge_layout title text
              (_get_coverage_color coverage min_good min_ok) style Ht Hx)
    as (tw & xw & doc & _ & _ & _ & _ & E & _ & R & _).
  rewrite tier_resolves in R. eauto.
Qed.

Lemma badge_fill_of_tier_witness :
  exists doc label_width value_width,
    _generate_svg_badge "coverage" "45%"
      (_get_coverage_color (45 # 1)%Q 80 60) "flat" = Ok doc /\
    contains doc
      (rectangles (height (shape_of "flat")) label_width value_width
         (tier_hex (45 # 1)%Q 80 60)).
Proof.
  apply (badge_fill_of_tier Q Q_GeInt (45 # 1)%Q 80 60 "coverage" "45%" "flat");
    vm_compute; reflexivity.
Defined.

Lemma templates_by_resolved_color (title text color color' : string) :
  resolve_color color = resolve_color color' ->
  _flat_badge_template title text color = _flat_badge_template title text color' /\
  _plastic_badge_template title text color = _plastic_badge_template title text color' /\
  _for_the_badge_template title text color = _for_the_badge_template title text color'.
Proof.
  unfold resolve_color. intros E.
  unfold _flat_badge_template, _plastic_badge_template, _for_the_badge_template.
  cbv zeta. rewrite E. repeat split; reflexivity.
Qed.

(** X10. A document depends on the colour only through the colour it
    resolves to: two colours that resolve alike, as a name and its code do,
    give the same document in every style; and a colour that is none of the
    seven names is written as the fill as it stands. *)
Theorem badge_by_resolved_color (title text color color' style : string) :
  (resolve_color color = resolve_color color' ->
   _generate_svg_badge title text color style = _generate_svg_badge title text color' style) /\
  (color_map !! color = None ->
   Str.len title < 2 ^ 63 -> Str.len text < 2 ^ 63 ->
   exists doc label_width value_width,
     _generate_svg_badge title text color style = Ok doc /\
     contains doc (rectangles (height (shape_of style)) label_width value_width color)).
Proof.
  split.
  - intros E. destruct (templates_by_resolved_color title text color color' E) as (E1 & E2 & E3).
    destruct (_generate_svg_badge_known title text color) as (K1 & K2 & K3).
    destruct (_generate_svg_badge_known title text color') as (K1' & K2' & K3').
    destruct (decide (style = "flat")) as [->|H1]; [congruence|].
    destruct (decide (style = "plastic")) as [->|H2]; [congruence|].
    destruct (decide (style = "for-the-badge")) as [->|H3]; [congruence|].
    unfold _generate_svg_badge.
    rewrite badge_templates_flat, (badge_templates_unknown style H1 H2 H3). exact E1.
  - intros Hc Ht Hx.
    destruct (_generate_svg_badge_layout title text color style Ht Hx)
      as (tw & xw & doc & _ & _ & _ & _ & E & _ & R & _).
    unfold resolve_color in R. rewrite Hc in R. eauto.
Qed.

Lemma badge_by_resolved_color_witness :
  _generate_svg_badge "coverage" "45%" "red" "flat" =
    _generate_svg_badge "coverage" "45%" "#e05d44" "flat" /\
  exists doc label_width value_width,
    _generate_svg_badge "coverage" "45%" "#e05d44" "flat" = Ok doc /\
    contains doc (rectangles (height (shape_of "flat")) label_width value_width "#e05d44").
Proof.
  split.
  - apply (badge_by_resolved_color "coverage" "45%" "red" "#e05d44" "flat"). reflexivity.
  - apply (badge_by_resolved_color "coverage" "45%" "#e05d44" "red" "flat");
      vm_compute; reflexivity.
Defined.

(** ** Rates that are blank or not finite *)

Lemma lstrip_blank (l : list ascii) : forallb Str.is_space l = true -> Float.lstrip l = [].
Proof.
  unfold Float.lstrip. induction l as [|c l IH]; simpl; [reflexivity|].
  intros H. apply andb_true_iff in H as [Hc Hl]. rewrite Hc. apply IH. exact Hl.
Qed.

Lemma parse_blank (s : string) : blank s = true -> Float.parse s = None.
Proof.
  intros H. unfold Float.parse, Float.strip. rewrite (lstrip_blank _ H). reflexivity.
Qed.

Section Rates.

Variable XML : string -> parsed.

(** X11. A line-rate on the root that is blank, made of white space only, is
    not taken as absent the way an empty one is: extraction raises, whatever
    the packages carry. *)
Theorem extraction_blank_top_level (w : World) (coverage_file data : string)
    (root : Element) (s : string) :
  files w !! coverage_file = Some data ->
  XML data = Tree root ->
  get root "line-rate" = Some s ->
  s <> "" ->
  blank s = true ->
  _parse_coverage_xml XML coverage_file w =
    (w, Raise (malformed_report coverage_file
                 ("could not convert string to float: " +:+ Str.repr s))).
Proof.
  intros Hf Hx Hg Hs Hb.
  rewrite (_parse_coverage_xml_tree XML _ _ _ _ Hf Hx). unfold resolve, first_rate.
  cbn [first_some]. unfold rate_attr at 1. rewrite Hg.
  assert (Ht : truthy s = true) by (destruct s; [contradiction | reflexivity]).
  rewrite Ht, handle_rate, (parse_blank s Hb). reflexivity.
Qed.


End Rates.

Lemma extraction_blank_top_level_witness :
  _parse_coverage_xml MiniXML.XML "blank.xml" (mkWorld {[ "blank.xml" := report_blank ]} []) =
    (mkWorld {[ "blank.xml" := report_blank ]} [],
     Raise (malformed_report "blank.xml"
              ("could not convert string to float: " +:+ Str.repr "  "))).
Proof.
  apply (extraction_blank_top_level MiniXML.XML (mkWorld {[ "blank.xml" := report_blank ]} [])
           "blank.xml" report_blank (root_of report_blank) "  ");
    try (vm_compute; reflexivity).
  discriminate.
Defined.


(** ** The arithmetic module *)

Lemma SFadd_comm (x y : Float.float) :
  SFadd Float.prec Float.emax x y = SFadd Float.prec Float.emax y x.
Proof.
  unfold SFadd.
  destruct x as [sx|sx| |sx mx ex], y as [sy|sy| |sy my ey]; try reflexivity;
    try (destruct sx, sy; reflexivity).
  cbv zeta. rewrite (Z.min_comm ey ex). f_equal. apply Z.add_comm.
Qed.

Lemma operations_lookup (operation : string) :
  Demo.operations !! operation =
    if String.eqb operation "add" then Some Demo.add
    else if String.eqb operation "subtract" then Some Demo.subtract
    else None.
Proof.
  unfold Demo.operations.
  destruct (String.eqb_spec operation "add") as [->|H1]; [reflexivity|].
  rewrite lookup_insert_ne by congruence.
  destruct (String.eqb_spec operation "subtract") as [->|H2]; [reflexivity|].
  apply lookup_singleton_ne. congruence.
Qed.

Lemma arith_raises (int_op : Z -> Z -> Z)
    (float_op : Float.float -> Float.float -> Float.float) (a b : Demo.num) (e : exn) :
  Demo.arith int_op float_op a b = Raise e ->
  e = OverflowError "int too large to convert to float".
Proof.
  unfold Demo.arith, Float.of_int.
  destruct a as [i|x], b as [j|y]; try discriminate.
  - destruct (Float.of_Z i); [discriminate|]. intros [= <-]. reflexivity.
  - destruct (Float.of_Z j); [discriminate|]. intros [= <-]. reflexivity.
Qed.

(** X13. [calculate] runs [add] for add and [subtract] for subtract, and for
    every other operation, in any spelling, raises the ValueError that quotes
    it; it raises a ValueError in no other case. *)
Theorem calculate_dispatch (operation : string) (a b : Demo.num) :
  Demo.calculate "add" a b = Demo.add a b /\
  Demo.calculate "subtract" a b = Demo.subtract a b /\
  (operation <> "add" -> operation <> "subtract" ->
   Demo.calculate operation a b =
     Raise (ValueError ("Unsupported operation: " +:+ operation))) /\
  (forall msg,
     Demo.calculate operation a b = Raise (ValueError msg) ->
     operation <> "add" /\ operation <> "subtract").
Proof.
  split; [reflexivity|]. split; [reflexivity|]. split.
  - intros H1 H2. unfold Demo.calculate. rewrite operations_lookup.
    destruct (String.eqb_spec operation "add"); [contradiction|].
    destruct (String.eqb_spec operation "subtract"); [contradiction | reflexivity].
  - intros msg H. split; intros ->.
    + change (Demo.add a b = Raise (ValueError msg)) in H.
      apply arith_raises in H. discriminate.
    + change (Demo.subtract a b = Raise (ValueError msg)) in H.
      apply arith_raises in H. discriminate.
Qed.

Lemma calculate_dispatch_witness :
  Demo.calculate "multiply" (Demo.Int 2) (Demo.Int 3) =
    Raise (ValueError ("Unsupported operation: " +:+ "multiply")).
Proof.
  destruct (calculate_dispatch "multiply" (Demo.Int 2) (Demo.Int 3)) as (_ & _ & H & _).
  apply H; discriminate.
Defined.

(** X14. On ints, [subtract] undoes [add] and [add] undoes [subtract],
    directly and through [calculate]; on floats it need not: adding 1e16 to
    1.0 and taking it off again leaves 0.0. *)
Theorem add_subtract_round_trip (a b : Z) :
  (r ← Demo.add (Demo.Int a) (Demo.Int b); Demo.subtract r (Demo.Int b)) = Ok (Demo.Int a) /\
  (r ← Demo.subtract (Demo.Int a) (Demo.Int b); Demo.add r (Demo.Int b)) = Ok (Demo.Int a) /\
  (r ← Demo.calculate "add" (Demo.Int a) (Demo.Int b);
   Demo.calculate "subtract" r (Demo.Int b)) = Ok (Demo.Int a) /\
  (r ← Demo.add (Demo.Flt one) (Demo.Flt ten_to_16); Demo.subtract r (Demo.Flt ten_to_16)) =
    Ok (Demo.Flt (S754_zero false)).
Proof.
  repeat split; try reflexivity;
    (change (Ok (Demo.Int (a + b - b)) = Ok (Demo.Int a)) ||
     change (Ok (Demo.Int (a - b + b)) = Ok (Demo.Int a))); do 2 f_equal; lia.
Qed.

(** X15. [add] does not depend on the order of its arguments, be they ints,
    floats or one of each, whether it returns or raises. *)
Theorem add_commutative (a b : Demo.num) : Demo.add a b = Demo.add b a.
Proof.
  unfold Demo.add, Demo.arith.
  destruct a as [i|x], b as [j|y].
  - rewrite Z.add_comm. reflexivity.
  - destruct (Float.of_int i) as [f|e]; [|reflexivity].
    cbn [mbind result_bind mret result_ret]. rewrite SFadd_comm. reflexivity.
  - destruct (Float.of_int j) as [f|e]; [|reflexivity].
    cbn [mbind result_bind mret result_ret]. rewrite SFadd_comm. reflexivity.
  - rewrite SFadd_comm. reflexivity.
Qed.
